(** * MemoryKeep bot factory: Memory API and automation worker

    A shallow embedding of [backend/app.py] (the Memory API: key
    registry, access gate, namespace store) and of
    [backend/automation_worker.py] (the polling dispatcher), with the
    properties of the specification stated over it.

    Conventions of the model.
    - Python values that arrive as JSON are terms of [json]; a Python
      [dict] is an association list whose first binding of a key is the
      live one, [None] is [JNull]; numbers are integers.
    - The host file system is a store of text files addressed by the
      path string the program builds, together with the set of
      directories it created and the log of the calls made to it.  Two
      paths are the same file exactly when they are the same string;
      a file can be opened for writing at any path, and the parent
      directory is not looked for.
    - What the Python runtime supplies and the repository does not
      define ([json.dump], [json.load], [str()] as used by f-strings, the
      directory of the program) is the interface [PyRuntime]; the two
      facts used about it are stated where they are used, and hold of
      the runtime [RefRuntime].
    - The clock ([datetime.now().isoformat()]) is an input of each
      request; the network is an input of each cycle of the worker. *)

From Stdlib Require Import ZArith Ascii String List Bool Lia DecimalString DecimalZ DecimalPos.
From stdpp Require Import base gmap strings list sets.

Local Open Scope string_scope.
Local Open Scope list_scope.

(** ** Python string built-ins used by the sources *)

Module Py.

(** Line feed, the only character the sources write that has no
    printable spelling. *)
Definition nl : string := String "010"%char "".

(** [str.isspace] on the ASCII range: TAB, LF, VT, FF, CR, FS, GS, RS,
    US and the space. *)
Definition is_space (c : ascii) : bool :=
  let n := nat_of_ascii c in
  ((9 <=? n)%nat && (n <=? 13)%nat) || ((28 <=? n)%nat && (n <=? 32)%nat).

Fixpoint lstrip (s : string) : string :=
  match s with
  | "" => ""
  | String c s' => if is_space c then lstrip s' else s
  end.

Fixpoint rstrip (s : string) : string :=
  match s with
  | "" => ""
  | String c s' =>
      match rstrip s' with
      | "" => if is_space c then "" else String c ""
      | r => String c r
      end
  end.

(** [s.strip()] *)
Definition strip (s : string) : string := rstrip (lstrip s).

(** [s.startswith(p)] *)
Definition startswith (s p : string) : bool := String.prefix p s.

(** [c in s] for a one-character needle. *)
Fixpoint contains (c : ascii) (s : string) : bool :=
  match s with
  | "" => false
  | String d s' => if Ascii.eqb c d then true else contains c s'
  end.

(** [s.split(c)]: every occurrence of the separator cuts, empty pieces
    are kept. *)
Fixpoint split (c : ascii) (s : string) : list string :=
  match s with
  | "" => [""]
  | String d s' =>
      if Ascii.eqb c d then "" :: split c s'
      else match split c s' with
           | [] => [String d ""]
           | p :: ps => String d p :: ps
           end
  end.

(** [s.split(c, 1)]: at most one cut, at the first occurrence. *)
Fixpoint split1 (c : ascii) (s : string) : list string :=
  match s with
  | "" => [""]
  | String d s' =>
      if Ascii.eqb c d then [""; s']
      else match split1 c s' with
           | [] => [String d ""]
           | p :: ps => String d p :: ps
           end
  end.

(** Iterating a text file: the lines of the text, each with its
    terminating line feed; a last line without one is yielded as it is. *)
Fixpoint readlines_from (cur : string -> string) (s : string) : list string :=
  match s with
  | "" => match cur "" with "" => [] | l => [l] end
  | String c s' =>
      if Ascii.eqb c "010"%char
      then cur (String c "") :: readlines_from (fun r => r) s'
      else readlines_from (fun r => cur (String c r)) s'
  end.

Definition readlines (s : string) : list string := readlines_from (fun r => r) s.

(** [d.get(k)] on the bindings of a dict, in insertion order. *)
Fixpoint dict_get {V} (k : string) (d : list (string * V)) : option V :=
  match d with
  | [] => None
  | (k', v) :: d' => if String.eqb k k' then Some v else dict_get k d'
  end.

(** [d[k] = v]: an existing key keeps its place, a new one goes last. *)
Fixpoint dict_set {V} (k : string) (v : V) (d : list (string * V))
  : list (string * V) :=
  match d with
  | [] => [(k, v)]
  | (k', v') :: d' =>
      if String.eqb k k' then (k, v) :: d' else (k', v') :: dict_set k v d'
  end.

(** [s.endswith(c)] for a one-character suffix. *)
Fixpoint endswith (s : string) (c : ascii) : bool :=
  match s with
  | "" => false
  | String d "" => Ascii.eqb d c
  | String _ s' => endswith s' c
  end.

(** [posixpath.join(a, b)] *)
Definition path_join (a b : string) : string :=
  if startswith b "/" then b
  else if String.eqb a "" || endswith a "/" then a +:+ b
  else a +:+ "/" +:+ b.

End Py.

(** ** JSON values as Python holds them *)

Module Json.

#[local] Unset Elimination Schemes.

Inductive json : Type :=
| JNull
| JBool (b : bool)
| JNum (n : Z)
| JStr (s : string)
| JArr (items : list json)
| JObj (fields : list (string * json)).

#[local] Set Elimination Schemes.

Definition is_none (v : json) : bool :=
  match v with JNull => true | _ => false end.

(** [isinstance(v, dict)], [isinstance(v, list)] *)
Definition is_dict (v : json) : bool :=
  match v with JObj _ => true | _ => false end.

Definition is_list (v : json) : bool :=
  match v with JArr _ => true | _ => false end.

(** Python truth value: [not v] is [negb (truthy v)]. *)
Definition truthy (v : json) : bool :=
  match v with
  | JNull => false
  | JBool b => b
  | JNum n => negb (n =? 0)%Z
  | JStr s => negb (String.eqb s "")
  | JArr l => match l with [] => false | _ => true end
  | JObj l => match l with [] => false | _ => true end
  end.

(** [v != s] for a string literal [s]. *)
Definition neq_str (v : json) (s : string) : bool :=
  match v with JStr s' => negb (String.eqb s' s) | _ => true end.

End Json.

Export Json.

(** ** What the Python runtime supplies *)

Class PyRuntime := {
  (** [json.dump(v, f, indent=2)]: the text written. *)
  json_dumps : json -> string;
  (** [json.load(f)] on the text of a file; [None] when it raises. *)
  json_loads : string -> option json;
  (** [str(v)], as an f-string field formats a value. *)
  py_format : json -> string;
  (** [os.path.dirname(__file__)] of [app.py]. *)
  app_dir : string
}.

(** The two facts about the runtime that properties lean on: what
    [json.dump] writes, [json.load] reads back; and formatting a string
    gives the string. *)
Definition dump_load_roundtrip `{PyRuntime} : Prop :=
  forall v : json, json_loads (json_dumps v) = Some v.

Definition format_str_id `{PyRuntime} : Prop :=
  forall s : string, py_format (JStr s) = s.

(** ** The file system and the effects of a view function *)

Module Fs.

Inductive fs_op : Type :=
| Makedirs (p : string)
| Exists (p : string)
| OpenRead (p : string)
| OpenWrite (p : string)
| OpenAppend (p : string).

Record world : Type := World {
  files : gmap string string;
  dirs : gset string;
  oplog : list fs_op
}.

Inductive exn : Type :=
| AttributeError
| ValueError
| IndexError
| TypeError
| JSONDecodeError
| FileNotFoundError
| RequestException.

Inductive outcome (A : Type) : Type :=
| Ret (a : A)
| Raise (e : exn).

Arguments Ret {A} a.
Arguments Raise {A} e.

(** A computation that reads and writes the file system and may raise. *)
Definition M (A : Type) : Type := world -> outcome A * world.

Definition ret {A} (a : A) : M A := fun w => (Ret a, w).

Definition raise {A} (e : exn) : M A := fun w => (Raise e, w).

Definition bind {A B} (m : M A) (k : A -> M B) : M B :=
  fun w => match m w with
           | (Ret a, w') => k a w'
           | (Raise e, w') => (Raise e, w')
           end.

Definition logged (op : fs_op) (w : world) : world :=
  World (files w) (dirs w) (oplog w ++ [op]).

(** [os.makedirs(p, exist_ok=True)] *)
Definition makedirs (p : string) : M unit :=
  fun w => (Ret tt, World (files w) ({[ p ]} ∪ dirs w) (oplog w ++ [Makedirs p])).

(** [os.path.exists(p)] for a file path. *)
Definition path_exists (p : string) : M bool :=
  fun w => (Ret (bool_decide (is_Some (files w !! p))), logged (Exists p) w).

(** [open(p, "r")] followed by reading the whole file. *)
Definition read_file (p : string) : M string :=
  fun w => match files w !! p with
           | Some c => (Ret c, logged (OpenRead p) w)
           | None => (Raise FileNotFoundError, logged (OpenRead p) w)
           end.

(** [open(p, "w")]: the file is created or truncated. *)
Definition open_write (p : string) : M unit :=
  fun w => (Ret tt, World (<[p := ""]> (files w)) (dirs w) (oplog w ++ [OpenWrite p])).

(** [open(p, "a")]: the file is created when missing. *)
Definition open_append (p : string) : M unit :=
  fun w => (Ret tt,
            World (<[p := default "" (files w !! p)]> (files w)) (dirs w)
                  (oplog w ++ [OpenAppend p])).

(** [f.write(s)] on a handle opened for writing or appending: the text
    goes to the end of the file. *)
Definition write (p : string) (s : string) : M unit :=
  fun w => (Ret tt,
            World (<[p := default "" (files w !! p) +:+ s]> (files w)) (dirs w) (oplog w)).

End Fs.

Export Fs.

Notation "'let*' x := m 'in' k" := (bind m (fun x => k))
  (at level 10, x name, m at level 100, k at level 200).
Notation "m ;; k" := (bind m (fun _ => k))
  (at level 100, k at level 200, right associativity).

(** ** backend/app.py *)

Module App.

Section WithRuntime.

Context `{RT : PyRuntime}.

(** An inbound HTTP request as the view functions see it:
    [request.headers.get("Authorization")], [request.json] and
    [request.args.get("type")]. *)
Record request : Type := Request {
  authorization : option string;
  body : json;
  arg_type : option string
}.

(** What Flask sends back: [jsonify(payload), status], or the 500 it
    makes of an exception that leaves the view function. *)
Inductive response : Type :=
| Response (status : Z) (payload : json)
| InternalServerError (e : exn).

Definition MEMORY_BASE : string := Py.path_join app_dir "memory_data".

(** The loop body of [load_whitelist]: [None] is [continue], otherwise
    the key the line adds.  Unpacking [name, key = [...]] raises unless
    the list has two items. *)
Definition whitelist_line (line : string) : outcome (option string) :=
  let line := Py.strip line in
  if String.eqb line "" || Py.startswith line "#" then Ret None
  else if Py.contains "," line then
    match map Py.strip (Py.split1 "," line) with
    | [name; key] => Ret (Some key)
    | _ => Raise ValueError
    end
  else Ret (Some line).

(** The [for] loop over the lines, adding to [keys] as it goes; an
    exception stops the loop and leaves what was added so far. *)
Fixpoint whitelist_loop (lines : list string) (keys : gset string)
  : outcome unit * gset string :=
  match lines with
  | [] => (Ret tt, keys)
  | line :: rest =>
      match whitelist_line line with
      | Ret None => whitelist_loop rest keys
      | Ret (Some key) => whitelist_loop rest ({[ key ]} ∪ keys)
      | Raise e => (Raise e, keys)
      end
  end.

(** [load_whitelist(path)]; the argument is what [open(path, "r")]
    gives: the text of the file, or [None] when it cannot be opened.
    The [try] covers the whole body and the [except] only prints. *)
Definition load_whitelist (source : option string) : gset string :=
  match source with
  | None => ∅
  | Some text => snd (whitelist_loop (Py.readlines text) ∅)
  end.

(** The decorator: [f] is the view function, run with
    [request.instance_id] bound to the key. *)
Definition require_api_key (VALID_KEYS : gset string)
    (f : request -> string -> M response) (req : request) : M response :=
  match authorization req with
  | None =>
      ret (Response 401 (JObj [("error", JStr "Missing or invalid Authorization header")]))
  | Some auth_header =>
      if String.eqb auth_header "" || negb (Py.startswith auth_header "Bearer ")
      then ret (Response 401 (JObj [("error", JStr "Missing or invalid Authorization header")]))
      else
        match Py.split " " auth_header !! 1%nat with
        | None => raise IndexError
        | Some api_key =>
            if bool_decide (api_key ∈ VALID_KEYS)
            then f req api_key
            else ret (Response 403 (JObj [("error", JStr "Unauthorized")]))
        end
  end.

Definition extension (mem_type : json) (as_json : bool) : string :=
  if as_json then "json"
  else if neq_str mem_type "experience" then "txt" else "log".

Definition inst_dir (instance_id : string) : string :=
  Py.path_join MEMORY_BASE instance_id.

Definition get_file_path (instance_id : string) (mem_type : json) (as_json : bool)
  : M string :=
  makedirs (inst_dir instance_id) ;;
  ret (Py.path_join (inst_dir instance_id)
         (py_format mem_type +:+ "." +:+ extension mem_type as_json)).

(** [data.get(k, dflt)] on [request.json]; anything but a dict has no
    [get]. *)
Definition data_get (data : json) (k : string) (dflt : json) : M json :=
  match data with
  | JObj d => ret (default dflt (Py.dict_get k d))
  | _ => raise AttributeError
  end.

(** [entry["timestamp"] = timestamp] on a dict. *)
Definition stamp (entry : json) (timestamp : string) : json :=
  match entry with
  | JObj d => JObj (Py.dict_set "timestamp" (JStr timestamp) d)
  | v => v
  end.

(** [logs.append(entry)]; only a list has [append]. *)
Definition py_append (logs entry : json) : M json :=
  match logs with
  | JArr l => ret (JArr (l ++ [entry]))
  | _ => raise AttributeError
  end.

(** [entry.strip()]; only a string has [strip]. *)
Definition py_strip (entry : json) : M string :=
  match entry with
  | JStr s => ret (Py.strip s)
  | _ => raise AttributeError
  end.

(** POST /api/log-memory; [now] is [datetime.now().isoformat()]. *)
Definition log_memory (now : string) (req : request) (instance_id : string)
  : M response :=
  let data := body req in
  let* mem_type := data_get data "type" (JStr "experience") in
  let* entry := data_get data "entry" JNull in
  if is_none entry then ret (Response 400 (JObj [("error", JStr "Missing 'entry'")]))
  else
    let is_json := is_dict entry in
    let* file_path := get_file_path instance_id mem_type is_json in
    let timestamp := now in
    (if is_json then
       let* present := path_exists file_path in
       let* logs :=
         (if present then
            let* text := read_file file_path in
            ret (default (JArr []) (json_loads text))
          else ret (JArr [])) in
       let entry := stamp entry timestamp in
       let* logs := py_append logs entry in
       open_write file_path ;;
       write file_path (json_dumps logs)
     else
       open_append file_path ;;
       write file_path ("[" +:+ timestamp +:+ "] " +:+ py_format entry +:+ Py.nl)) ;;
    ret (Response 200 (JObj [("status", JStr "logged")])).

(** GET /api/get-memory *)
Definition get_memory (req : request) (instance_id : string) : M response :=
  let mem_type := JStr (default "experience" (arg_type req)) in
  let* file_path_txt := get_file_path instance_id mem_type false in
  let* file_path_json := get_file_path instance_id mem_type true in
  let* has_json := path_exists file_path_json in
  if has_json then
    let* text := read_file file_path_json in
    match json_loads text with
    | Some v => ret (Response 200 (JObj [("memory", v); ("format", JStr "json")]))
    | None => raise JSONDecodeError
    end
  else
    let* has_txt := path_exists file_path_txt in
    if has_txt then
      let* text := read_file file_path_txt in
      ret (Response 200 (JObj [("memory", JStr text); ("format", JStr "text")]))
    else ret (Response 404 (JObj [("error", JStr "No memory found")])).

(** POST /api/overwrite-memory *)
Definition overwrite_memory (req : request) (instance_id : string) : M response :=
  let data := body req in
  let* mem_type := data_get data "type" JNull in
  let* entry := data_get data "entry" JNull in
  if negb (truthy mem_type) || is_none entry
  then ret (Response 400 (JObj [("error", JStr "Missing 'type' or 'entry'")]))
  else
    let is_json := is_dict entry || is_list entry in
    let* file_path := get_file_path instance_id mem_type is_json in
    open_write file_path ;;
    (if is_json then write file_path (json_dumps entry)
     else
       let* text := py_strip entry in
       write file_path (text +:+ Py.nl)) ;;
    ret (Response 200 (JObj [("status", JStr "overwritten")])).

(** Flask around a view function: an exception that escapes becomes a
    500 response; what was written before it stays written. *)
Definition serve (view : M response) (w : world) : response * world :=
  match view w with
  | (Ret r, w') => (r, w')
  | (Raise e, w') => (InternalServerError e, w')
  end.

(** The three routes of the Memory API. *)
Inductive route : Type :=
| LogMemory (now : string)
| GetMemory
| OverwriteMemory.

Definition view_of (r : route) : request -> string -> M response :=
  match r with
  | LogMemory now => log_memory now
  | GetMemory => get_memory
  | OverwriteMemory => overwrite_memory
  end.

(** One request handled by the running application. *)
Definition handle (VALID_KEYS : gset string) (r : route) (req : request) (w : world)
  : response * world :=
  serve (require_api_key VALID_KEYS (view_of r) req) w.

End WithRuntime.

End App.

(** ** backend/automation_worker.py *)

Module Worker.

Definition MEMORY_TYPES : list string := ["core"; "notebook"; "experience"].

(** What the worker prints, and the calls it makes to handlers. *)
Inductive event : Type :=
| Live
| WhitelistFailed
| Checking (bot_name : string)
| GetMemoryFailed (bot_key mem_type : string)
| NoMemories (bot_name : string)
| Running (module_type bot_name mem_type : string)
| EmailMonitor (bot_name : string) (config : json)
| ScheduledMessage (bot_name : string) (config : json)
| Custom (tag bot_name : string) (config : json)
| Critical (e : exn)
| Sleeping.

(** Code that prints and may raise. *)
Definition W (A : Type) : Type := list event * outcome A.

Definition and_then (m : W unit) (k : W unit) : W unit :=
  match m with
  | (out, Ret _) => (out ++ fst k, snd k)
  | (out, Raise e) => (out, Raise e)
  end.

(** A [for] loop whose body may raise: the first exception leaves the
    loop. *)
Fixpoint for_each {A} (l : list A) (body : A -> W unit) : W unit :=
  match l with
  | [] => ([], Ret tt)
  | x :: rest => and_then (body x) (for_each rest body)
  end.

(** The loop body of [load_whitelist]: [None] is [continue], otherwise
    the name and the key the line binds. *)
Definition whitelist_line (line : string) : outcome (option (string * string)) :=
  let line := Py.strip line in
  if String.eqb line "" || Py.startswith line "#" then Ret None
  else if Py.contains "," line then
    match map Py.strip (Py.split1 "," line) with
    | [name; key] => Ret (Some (name, key))
    | _ => Raise ValueError
    end
  else Ret (Some (line, line)).

Fixpoint whitelist_loop (lines : list string) (bots : list (string * string))
  : outcome unit * list (string * string) :=
  match lines with
  | [] => (Ret tt, bots)
  | line :: rest =>
      match whitelist_line line with
      | Ret None => whitelist_loop rest bots
      | Ret (Some (name, key)) => whitelist_loop rest (Py.dict_set name key bots)
      | Raise e => (Raise e, bots)
      end
  end.

(** [load_whitelist(path)] of the worker: the dict from bot name to
    key, and the warning when the [except] branch ran. *)
Definition load_whitelist (source : option string) : list event * list (string * string) :=
  match source with
  | None => ([WhitelistFailed], [])
  | Some text =>
      match whitelist_loop (Py.readlines text) [] with
      | (Ret _, bots) => ([], bots)
      | (Raise _, bots) => ([WhitelistFailed], bots)
      end
  end.

(** The Memory API as the worker reaches it: what
    [requests.get(...)], [raise_for_status()] and [r.json()] give for a
    key and a memory type, an exception for a timeout, a refused
    connection, an error status or a body that is not JSON. *)
Definition remote : Type := string -> string -> outcome json.

(** [api_get_memory]: every exception of the [try] is printed and
    turned into [None]. *)
Definition api_get_memory (api : remote) (bot_key mem_type : string) : list event * json :=
  match api bot_key mem_type with
  | Ret (JObj d) => ([], default JNull (Py.dict_get "memory" d))
  | Ret _ => ([GetMemoryFailed bot_key mem_type], JNull)
  | Raise _ => ([GetMemoryFailed bot_key mem_type], JNull)
  end.

(** The [context] argument of a handler. *)
Record context : Type := Context {
  ctx_mem_type : string;
  all_memory : list (string * json)
}.

Definition handler : Type := string -> string -> json -> context -> W unit.

Definition handle_email_monitor : handler :=
  fun bot_name bot_key config context => ([EmailMonitor bot_name config], Ret tt).

Definition handle_scheduled_message : handler :=
  fun bot_name bot_key config context => ([ScheduledMessage bot_name config], Ret tt).

Definition MODULE_HANDLERS : list (string * handler) :=
  [("email-monitor", handle_email_monitor);
   ("scheduled-message", handle_scheduled_message)].

(** [module.get(k)]: only a dict has [get]. *)
Definition module_get (module : json) (k : string) : outcome json :=
  match module with
  | JObj d => Ret (default JNull (Py.dict_get k d))
  | _ => Raise AttributeError
  end.

(** [module.get("type") or module.get("module_type")] *)
Definition declared_type (module : json) : outcome json :=
  match module_get module "type" with
  | Ret t => if truthy t then Ret t else module_get module "module_type"
  | Raise e => Raise e
  end.

(** [MODULE_HANDLERS.get(module_type)]: a list or a dict cannot be
    hashed; a key that is not a string matches no entry. *)
Definition handlers_get (handlers : list (string * handler)) (module_type : json)
  : outcome (option (string * handler)) :=
  match module_type with
  | JArr _ | JObj _ => Raise TypeError
  | JStr s => Ret (option_map (fun h => (s, h)) (Py.dict_get s handlers))
  | _ => Ret None
  end.

(** The body of [for module in modules]. *)
Definition dispatch (handlers : list (string * handler))
    (bot_name bot_key mem_type : string) (memories : list (string * json))
    (module : json) : W unit :=
  match declared_type module with
  | Raise e => ([], Raise e)
  | Ret module_type =>
      match handlers_get handlers module_type with
      | Raise e => ([], Raise e)
      | Ret (Some (name, h)) =>
          and_then ([Running name bot_name mem_type], Ret tt)
                   (h bot_name bot_key module (Context mem_type memories))
      | Ret None => ([], Ret tt)
      end
  end.

(** The list a fetched value is read as. *)
Definition modules_of (data : json) : list json :=
  match data with
  | JObj _ => [data]
  | JArr l => l
  | _ => []
  end.

(** The body of [for mem_type, data in memories.items()]. *)
Definition per_memory (handlers : list (string * handler))
    (bot_name bot_key : string) (memories : list (string * json))
    (item : string * json) : W unit :=
  let (mem_type, data) := item in
  if negb (truthy data) then ([], Ret tt)
  else for_each (modules_of data) (dispatch handlers bot_name bot_key mem_type memories).

(** The dict comprehension over [MEMORY_TYPES]. *)
Fixpoint fetch_all (api : remote) (bot_key : string) (types : list string)
    (memories : list (string * json)) : list event * list (string * json) :=
  match types with
  | [] => ([], memories)
  | mem :: rest =>
      let (out, data) := api_get_memory api bot_key mem in
      let (out', memories') := fetch_all api bot_key rest (Py.dict_set mem data memories) in
      (out ++ out', memories')
  end.

(** The body of [for bot_name, bot_key in BOT_KEYS.items()]. *)
Definition per_bot (handlers : list (string * handler)) (api : remote)
    (bot : string * string) : W unit :=
  let (bot_name, bot_key) := bot in
  let (out, memories) := fetch_all api bot_key MEMORY_TYPES [] in
  and_then (Checking bot_name :: out, Ret tt)
    (match memories with
     | [] => ([NoMemories bot_name], Ret tt)
     | _ => for_each memories (per_memory handlers bot_name bot_key memories)
     end).

(** The [try] block of one turn of the loop. *)
Definition cycle_body (handlers : list (string * handler)) (source : option string)
    (api : remote) : W unit :=
  let (out, BOT_KEYS) := load_whitelist source in
  and_then (out, Ret tt) (for_each BOT_KEYS (per_bot handlers api)).

(** One turn of [while True]: the [try], its [except Exception], then
    the sleep. *)
Definition cycle (handlers : list (string * handler)) (source : option string)
    (api : remote) : list event :=
  match cycle_body handlers source api with
  | (out, Ret _) => out ++ [Sleeping]
  | (out, Raise e) => out ++ [Critical e; Sleeping]
  end.

(** [run_automations] over its first [n] turns; [env k] is the
    whitelist file and the Memory API as they are during turn [k]. *)
Fixpoint turns (handlers : list (string * handler))
    (env : nat -> option string * remote) (k n : nat) : list event :=
  match n with
  | O => []
  | S n' => cycle handlers (fst (env k)) (snd (env k)) ++ turns handlers env (S k) n'
  end.

Definition run_automations (handlers : list (string * handler))
    (env : nat -> option string * remote) (n : nat) : list event :=
  Live :: turns handlers env 0 n.

(** What [api_log_memory] prints. *)
Inductive log_print : Type :=
| Logged (bot_key mem_type : string)
| LogMemoryFailed (bot_key mem_type : string).

(** The Memory API as [api_log_memory] reaches it: what
    [requests.post(...)] and [raise_for_status()] give for a key, a
    memory type and an entry. *)
Definition poster : Type := string -> string -> json -> outcome unit.

(** [api_log_memory]: it returns nothing and raises nothing; it prints
    one line either way. *)
Definition api_log_memory (api : poster) (bot_key mem_type : string) (entry : json)
  : log_print :=
  match api bot_key mem_type entry with
  | Ret _ => Logged bot_key mem_type
  | Raise _ => LogMemoryFailed bot_key mem_type
  end.

End Worker.

(** ** The worker's client calls against the Memory API of app.py *)

Module Wire.

Section WithRuntime.

Context `{RT : PyRuntime}.

(** The request [api_get_memory] sends: the Bearer header and the
    [type] parameter. *)
Definition get_request (bot_key mem_type : string) : App.request :=
  App.Request (Some ("Bearer " +:+ bot_key)) JNull (Some mem_type).

(** The request [api_log_memory] sends: the Bearer header and the JSON
    payload [{"type": mem_type, "entry": entry}]. *)
Definition post_request (bot_key mem_type : string) (entry : json) : App.request :=
  App.Request (Some ("Bearer " +:+ bot_key))
              (JObj [("type", JStr mem_type); ("entry", entry)]) None.

(** [r.raise_for_status()] and [r.json()] on a response of the
    application: a status of 400 or more raises. *)
Definition received (r : App.response) : outcome json :=
  match r with
  | App.Response status payload =>
      if (status <? 400)%Z then Ret payload else Raise RequestException
  | App.InternalServerError _ => Raise RequestException
  end.

(** The application, holding the world [w], as [api_get_memory]
    reaches it. *)
Definition served_by (VALID_KEYS : gset string) (w : world) : Worker.remote :=
  fun bot_key mem_type =>
    received (fst (App.handle VALID_KEYS App.GetMemory (get_request bot_key mem_type) w)).

(** The application as [api_log_memory] reaches it at clock [now], and
    the world it is left in. *)
Definition posted_to (VALID_KEYS : gset string) (now : string) (w : world)
  : Worker.poster :=
  fun bot_key mem_type entry =>
    match received (fst (App.handle VALID_KEYS (App.LogMemory now)
                           (post_request bot_key mem_type entry) w)) with
    | Ret _ => Ret tt
    | Raise e => Raise e
    end.

Definition after_post (VALID_KEYS : gset string) (now : string) (w : world)
    (bot_key mem_type : string) (entry : json) : world :=
  snd (App.handle VALID_KEYS (App.LogMemory now) (post_request bot_key mem_type entry) w).

End WithRuntime.

End Wire.

(** ** A reference runtime

    One runtime that can be run: compact JSON text for [json.dump] and a
    recursive-descent reader for [json.load].  It shows that the facts
    assumed of [PyRuntime] hold together, and lets the examples
    compute. *)

Module RefRuntime.

Definition quote : ascii := "034"%char.
Definition backslash : ascii := "092"%char.

Fixpoint escape (s : string) : string :=
  match s with
  | "" => ""
  | String c s' =>
      if Ascii.eqb c quote || Ascii.eqb c backslash
      then String backslash (String c (escape s'))
      else String c (escape s')
  end.

Definition print_string (s : string) : string :=
  String quote (escape s +:+ String quote "").

Definition print_number (n : Z) : string :=
  NilZero.string_of_int (Z.to_int n).

(** The elements after the first, each behind its comma. *)
Definition items_rest (pr : json -> string) : list json -> string :=
  fix rest (l : list json) : string :=
    match l with
    | [] => ""
    | y :: l' => "," +:+ pr y +:+ rest l'
    end.

Definition members_rest (pr : json -> string) : list (string * json) -> string :=
  fix rest (d : list (string * json)) : string :=
    match d with
    | [] => ""
    | m :: d' => "," +:+ print_string (fst m) +:+ ":" +:+ pr (snd m) +:+ rest d'
    end.

Fixpoint print (v : json) : string :=
  match v with
  | JNull => "null"
  | JBool true => "true"
  | JBool false => "false"
  | JNum n => print_number n
  | JStr s => print_string s
  | JArr l =>
      "[" +:+
      match l with
      | [] => ""
      | x :: l' => print x +:+ items_rest print l'
      end +:+ "]"
  | JObj d =>
      "{" +:+
      match d with
      | [] => ""
      | m :: d' =>
          print_string (fst m) +:+ ":" +:+ print (snd m) +:+ members_rest print d'
      end +:+ "}"
  end.

(** The text up to the closing quote, escapes undone, and what follows
    the quote. *)
Fixpoint parse_string (s : string) : option (string * string) :=
  match s with
  | "" => None
  | String c r =>
      if Ascii.eqb c quote then Some ("", r)
      else if Ascii.eqb c backslash then
        match r with
        | "" => None
        | String d r' =>
            match parse_string r' with
            | Some (str, rest) => Some (String d str, rest)
            | None => None
            end
        end
      else
        match parse_string r with
        | Some (str, rest) => Some (String c str, rest)
        | None => None
        end
  end.

Definition is_num_char (c : ascii) : bool :=
  Ascii.eqb c "-" ||
  ((48 <=? nat_of_ascii c)%nat && (nat_of_ascii c <=? 57)%nat).

Fixpoint span_num (s : string) : string * string :=
  match s with
  | "" => ("", "")
  | String c r =>
      if is_num_char c
      then let (digits, rest) := span_num r in (String c digits, rest)
      else ("", s)
  end.

Fixpoint strip_prefix (p s : string) : option string :=
  match p with
  | "" => Some s
  | String c p' =>
      match s with
      | "" => None
      | String d s' => if Ascii.eqb c d then strip_prefix p' s' else None
      end
  end.

Definition expect (c : ascii) (s : string) : option string :=
  match s with
  | "" => None
  | String d r => if Ascii.eqb c d then Some r else None
  end.

Fixpoint parse (fuel : nat) (s : string) {struct fuel} : option (json * string) :=
  match fuel with
  | O => None
  | S f =>
      match s with
      | "" => None
      | String c r =>
          if is_num_char c then
            let (digits, rest) := span_num s in
            match NilZero.int_of_string digits with
            | Some d => Some (JNum (Z.of_int d), rest)
            | None => None
            end
          else if Ascii.eqb c "n" then
            option_map (fun rest => (JNull, rest)) (strip_prefix "ull" r)
          else if Ascii.eqb c "t" then
            option_map (fun rest => (JBool true, rest)) (strip_prefix "rue" r)
          else if Ascii.eqb c "f" then
            option_map (fun rest => (JBool false, rest)) (strip_prefix "alse" r)
          else if Ascii.eqb c quote then
            match parse_string r with
            | Some (str, rest) => Some (JStr str, rest)
            | None => None
            end
          else if Ascii.eqb c "[" then
            match parse f r with
            | Some (x, r1) =>
                match parse_items f r1 with
                | Some (l, rest) => Some (JArr (x :: l), rest)
                | None => None
                end
            | None => option_map (fun rest => (JArr [], rest)) (expect "]" r)
            end
          else if Ascii.eqb c "{" then
            match expect "}" r with
            | Some rest => Some (JObj [], rest)
            | None =>
                match parse_member f r with
                | Some (m, r1) =>
                    match parse_members f r1 with
                    | Some (d, rest) => Some (JObj (m :: d), rest)
                    | None => None
                    end
                | None => None
                end
            end
          else None
      end
  end

with parse_items (fuel : nat) (s : string) {struct fuel} : option (list json * string) :=
  match fuel with
  | O => None
  | S f =>
      match s with
      | "" => None
      | String c r =>
          if Ascii.eqb c "]" then Some ([], r)
          else if Ascii.eqb c "," then
            match parse f r with
            | Some (x, r1) =>
                match parse_items f r1 with
                | Some (l, rest) => Some (x :: l, rest)
                | None => None
                end
            | None => None
            end
          else None
      end
  end

with parse_member (fuel : nat) (s : string) {struct fuel} : option ((string * json) * string) :=
  match fuel with
  | O => None
  | S f =>
      match expect quote s with
      | Some r =>
          match parse_string r with
          | Some (k, r1) =>
              match expect ":" r1 with
              | Some r2 =>
                  match parse f r2 with
                  | Some (x, rest) => Some ((k, x), rest)
                  | None => None
                  end
              | None => None
              end
          | None => None
          end
      | None => None
      end
  end

with parse_members (fuel : nat) (s : string) {struct fuel}
  : option (list (string * json) * string) :=
  match fuel with
  | O => None
  | S f =>
      match s with
      | "" => None
      | String c r =>
          if Ascii.eqb c "}" then Some ([], r)
          else if Ascii.eqb c "," then
            match parse_member f r with
            | Some (m, r1) =>
                match parse_members f r1 with
                | Some (d, rest) => Some (m :: d, rest)
                | None => None
                end
            | None => None
            end
          else None
      end
  end.

(** [json.load]: one value and nothing after it. *)
Definition loads (s : string) : option json :=
  match parse (S (String.length s)) s with
  | Some (v, "") => Some v
  | _ => None
  end.

(** [repr(v)], for strings that need no escape. *)
Fixpoint repr (v : json) : string :=
  match v with
  | JNull => "None"
  | JBool true => "True"
  | JBool false => "False"
  | JNum n => print_number n
  | JStr s => "'" +:+ s +:+ "'"
  | JArr l =>
      "[" +:+
      match l with
      | [] => ""
      | x :: l' =>
          repr x +:+
          (fix rest (l : list json) : string :=
             match l with
             | [] => ""
             | y :: l'' => ", " +:+ repr y +:+ rest l''
             end) l'
      end +:+ "]"
  | JObj d =>
      "{" +:+
      match d with
      | [] => ""
      | m :: d' =>
          "'" +:+ fst m +:+ "': " +:+ repr (snd m) +:+
          (fix rest (d : list (string * json)) : string :=
             match d with
             | [] => ""
             | m' :: d'' => ", '" +:+ fst m' +:+ "': " +:+ repr (snd m') +:+ rest d''
             end) d'
      end +:+ "}"
  end.

(** [str(v)]: a string is itself, anything else its [repr]. *)
Definition format (v : json) : string :=
  match v with
  | JStr s => s
  | v => repr v
  end.

#[export] Instance runtime : PyRuntime := {
  json_dumps := print;
  json_loads := loads;
  py_format := format;
  app_dir := "/srv/backend"
}.

End RefRuntime.

(** * The vocabulary of the properties *)

(** ** The store, the views and the tenants *)

Section StoreVocabulary.

Context `{RT : PyRuntime}.

Import App.

(** The path [get_file_path] returns. *)
Definition location (instance_id : string) (mem_type : json) (as_json : bool) : string :=
  Py.path_join (inst_dir instance_id)
    (py_format mem_type +:+ "." +:+ extension mem_type as_json).

(** The world [get_file_path] leaves. *)
Definition resolved (instance_id : string) (w : world) : world :=
  World (files w) ({[ inst_dir instance_id ]} ∪ dirs w)
        (oplog w ++ [Makedirs (inst_dir instance_id)]).

(** The line [log_memory] writes for a raw entry. *)
Definition raw_line (now : string) (entry : json) : string :=
  "[" +:+ now +:+ "] " +:+ py_format entry +:+ Py.nl.

(** The array [log_memory] finds at a structured location. *)
Definition existing_logs (w : world) (p : string) : json :=
  match files w !! p with
  | Some text => default (JArr []) (json_loads text)
  | None => JArr []
  end.

(** [data.get("type", dflt)] *)
Definition body_type (dflt : json) (d : list (string * json)) : json :=
  default dflt (Py.dict_get "type" d).

(** [data.get("entry")] *)
Definition body_entry (d : list (string * json)) : json :=
  default JNull (Py.dict_get "entry" d).

(** What a read answers, from the two files of the category. *)
Definition read_answer (w : world) (pj pt : string) : outcome response :=
  match files w !! pj with
  | Some text =>
      match json_loads text with
      | Some v => Ret (Response 200 (JObj [("memory", v); ("format", JStr "json")]))
      | None => Raise JSONDecodeError
      end
  | None =>
      match files w !! pt with
      | Some raw => Ret (Response 200 (JObj [("memory", JStr raw); ("format", JStr "text")]))
      | None => Ret (Response 404 (JObj [("error", JStr "No memory found")]))
      end
  end.

(** The response Flask makes of what a view function returned or
    raised. *)
Definition reply (o : outcome response) : response :=
  match o with
  | Ret r => r
  | Raise e => InternalServerError e
  end.

(** Calls served one after the other. *)
Fixpoint serve_all (views : list (M response)) (w : world) : list response * world :=
  match views with
  | [] => ([], w)
  | view :: rest =>
      let (r, w1) := serve view w in
      let (rs, w2) := serve_all rest w1 in
      (r :: rs, w2)
  end.

(** Texts put end to end. *)
Fixpoint joined (l : list string) : string :=
  match l with
  | [] => ""
  | x :: rest => x +:+ joined rest
  end.

(** The acknowledgement of an append. *)
Definition logged_ok : response := Response 200 (JObj [("status", JStr "logged")]).

(** A request body with a plain string entry and no type field. *)
Definition untyped_text (req : request) (text : string) : Prop :=
  ∃ d, body req = JObj d ∧ Py.dict_get "type" d = None
       ∧ Py.dict_get "entry" d = Some (JStr text).

(** A request body whose entry is an object, for a named category. *)
Definition structured_append (category : string) (req : request)
    (fields : list (string * json)) : Prop :=
  ∃ d, body req = JObj d ∧ body_type (JStr "experience") d = JStr category
       ∧ Py.dict_get "entry" d = Some (JObj fields).

(** No path separator in a name. *)
Definition slash_free (s : string) : bool := negb (Py.contains "/" s).

(** Where a tenant's file of a plain name lies, relative to the base
    directory. *)
Definition relative (key name : string) : string :=
  if String.eqb key "" then name else key +:+ "/" +:+ name.

(** The category a request names, as its view function reads it. *)
Definition route_category (r : route) (req : request) : json :=
  match r with
  | GetMemory => JStr (default "experience" (arg_type req))
  | LogMemory _ =>
      match body req with
      | JObj d => body_type (JStr "experience") d
      | _ => JNull
      end
  | OverwriteMemory =>
      match body req with
      | JObj d => body_type JNull d
      | _ => JNull
      end
  end.

(** At most one file written. *)
Definition update (u : option (string * string)) (f : gmap string string)
  : gmap string string :=
  match u with
  | Some (p, text) => <[p := text]> f
  | None => f
  end.

(** The credential the gate takes from a request. *)
Definition presented_key (req : request) : option string :=
  match authorization req with
  | Some s => if Py.startswith s "Bearer " then Py.split " " s !! 1%nat else None
  | None => None
  end.

(** What the tenant [k] gets back over a run of requests from any
    tenants. *)
Fixpoint observe (VALID_KEYS : gset string) (k : string)
    (trace : list (route * request)) (w : world) : list response :=
  match trace with
  | [] => []
  | c :: rest =>
      let served := handle VALID_KEYS (fst c) (snd c) w in
      if bool_decide (presented_key (snd c) = Some k)
      then fst served :: observe VALID_KEYS k rest (snd served)
      else observe VALID_KEYS k rest (snd served)
  end.

(** The run with only the requests of [k] left in. *)
Definition purge (k : string) (trace : list (route * request)) : list (route * request) :=
  filter (λ c, presented_key (snd c) = Some k) trace.

(** A request whose credential and category are plain names. *)
Definition plain (c : route * request) : Prop :=
  ∀ key, presented_key (snd c) = Some key →
    slash_free key = true
    ∧ slash_free (py_format (route_category (fst c) (snd c))) = true.

(** Two worlds that hold the same files of plain name for [k]. *)
Definition agree (k : string) (w w' : world) : Prop :=
  ∀ name, slash_free name = true →
    files w !! Py.path_join (inst_dir k) name = files w' !! Py.path_join (inst_dir k) name.

End StoreVocabulary.

(** ** The registry format *)

Section RegistryVocabulary.

(** The text of a line before its first [c]. *)
Fixpoint before_first (c : ascii) (s : string) : string :=
  match s with
  | "" => ""
  | String d s' => if Ascii.eqb c d then "" else String d (before_first c s')
  end.

(** The text of a line after its first [c]. *)
Fixpoint after_first (c : ascii) (s : string) : string :=
  match s with
  | "" => ""
  | String d s' => if Ascii.eqb c d then s' else after_first c s'
  end.

(** The registry format in the words of the specification, read on the
    line without its surrounding white space: a blank line and a line
    starting with '#' stand for nothing; a line with a comma is
    [name, credential]; any other line is a bare credential, which is
    its own name. *)
Definition entry_of_line (line : string) : option (string * string) :=
  let entry := Py.strip line in
  if String.eqb entry "" then None
  else if Py.startswith entry "#" then None
  else if Py.contains "," entry
       then Some (Py.strip (before_first "," entry), Py.strip (after_first "," entry))
       else Some (entry, entry).

(** The credential alone. *)
Definition credential_of_line (line : string) : option string :=
  snd <$> entry_of_line line.

(** The binding a line leaves in the worker's dict. *)
Definition bind_line (bots : list (string * string)) (line : string)
  : list (string * string) :=
  match entry_of_line line with
  | Some (name, key) => Py.dict_set name key bots
  | None => bots
  end.

End RegistryVocabulary.

(** ** Reading back what the reference runtime prints *)

Section CodecVocabulary.

Import RefRuntime.

(** Nothing that could continue a number. *)
Definition ends_number (rest : string) : Prop :=
  match rest with
  | "" => True
  | String c _ => is_num_char c = false
  end.

(** Only digits and minus signs. *)
Fixpoint all_num (s : string) : bool :=
  match s with
  | "" => true
  | String c r => is_num_char c && all_num r
  end.

(** With fuel for the length of its text, a printed value is parsed
    back, and what followed it is left over. *)
Definition reads_back (v : json) : Prop :=
  ∀ fuel rest, (String.length (print v) ≤ fuel)%nat → ends_number rest →
    parse fuel (print v +:+ rest) = Some (v, rest).

End CodecVocabulary.

(** ** A server and a worker to run *)

Module Scenario.

Import App RefRuntime.

(** A server just started: no file, no directory, nothing logged. *)
Definition fresh : world := World ∅ ∅ [].

(** The keys it loaded. *)
Definition VALID_KEYS : gset string := {[ "alice"; "bob" ]}.

(** A POST with a JSON object as body, and a GET with a type. *)
Definition post (key : string) (data : list (string * json)) : request :=
  Request (Some ("Bearer " +:+ key)) (JObj data) None.

Definition get (key category : string) : request :=
  Request (Some ("Bearer " +:+ key)) JNull (Some category).

(** The worker's registry: two bots. *)
Definition bots_file : option string :=
  Some ("alice, k1" +:+ Py.nl +:+ "bob, k2" +:+ Py.nl).

(** A Memory API where bob's "core" is a list with one email-monitor
    descriptor, alice's "core" is [core_of_alice], and every other
    category is missing (404). *)
Definition api_with (core_of_alice : outcome json) : Worker.remote :=
  fun bot_key mem_type =>
    if String.eqb mem_type "core" then
      if String.eqb bot_key "k1" then core_of_alice
      else Ret (JObj [("memory", JArr [JObj [("type", JStr "email-monitor")]]);
                      ("format", JStr "json")])
    else Raise RequestException.

End Scenario.

(** ** Runs of requests and the soundness of a store *)

Section RunVocabulary.

Context `{RT : PyRuntime}.

Import App.

(** The world after a run of requests, and the answers given. *)
Fixpoint run_trace (VALID_KEYS : gset string) (trace : list (route * request))
    (w : world) : list response * world :=
  match trace with
  | [] => ([], w)
  | c :: rest =>
      let served := handle VALID_KEYS (fst c) (snd c) w in
      let later := run_trace VALID_KEYS rest (snd served) in
      (fst served :: fst later, snd later)
  end.

(** Every file at a structured location holds text that [json.load]
    reads. *)
Definition sound (w : world) : Prop :=
  ∀ instance_id mem_type text,
    files w !! location instance_id mem_type true = Some text →
    is_Some (json_loads text).

(** A response that is not a 500. *)
Definition no_server_error (r : response) : Prop :=
  match r with
  | Response _ _ => True
  | InternalServerError _ => False
  end.

(** Only white space. *)
Fixpoint blank (s : string) : bool :=
  match s with
  | "" => true
  | String c r => Py.is_space c && blank r
  end.

End RunVocabulary.

(** * Properties *)

(** ** The namespace store: locations *)

Section Locations.

Context `{RT : PyRuntime}.

Import App.

Lemma get_file_path_run instance_id mem_type as_json w :
  get_file_path instance_id mem_type as_json w
  = (Ret (location instance_id mem_type as_json), resolved instance_id w).
Proof. reflexivity. Qed.

(** C8. For every tenant identity and category, the location resolved
    for a structured record ends in the extension json; for a raw record
    it ends in txt, except that the category equal to the string
    "experience" ends in log.  Resolving always leaves the tenant's
    namespace directory in existence, touches no file, and resolving a
    second time gives the same location and the same files and
    directories. *)
Theorem get_file_path_resolves (instance_id : string) (mem_type : json) (as_json : bool)
    (w : world) :
  let ext := if as_json then "json"
             else match mem_type with
                  | JStr s => if String.eqb s "experience" then "log" else "txt"
                  | _ => "txt"
                  end in
  let p := Py.path_join (Py.path_join MEMORY_BASE instance_id)
             (py_format mem_type +:+ "." +:+ ext) in
  let w1 := snd (get_file_path instance_id mem_type as_json w) in
  let w2 := snd (get_file_path instance_id mem_type as_json w1) in
  fst (get_file_path instance_id mem_type as_json w) = Ret p
  ∧ Py.path_join MEMORY_BASE instance_id ∈ dirs w1
  ∧ files w1 = files w
  ∧ dirs w ⊆ dirs w1
  ∧ fst (get_file_path instance_id mem_type as_json w1) = Ret p
  ∧ files w2 = files w1
  ∧ dirs w2 = dirs w1.
Proof.
  cbv zeta. rewrite !get_file_path_run. cbn [fst snd resolved files dirs].
  assert (location instance_id mem_type as_json
          = Py.path_join (Py.path_join MEMORY_BASE instance_id)
              (py_format mem_type +:+ "." +:+
               (if as_json then "json"
                else match mem_type with
                     | JStr s => if String.eqb s "experience" then "log" else "txt"
                     | _ => "txt"
                     end))) as ->.
  { unfold location, inst_dir, extension, neq_str.
    destruct as_json; [reflexivity |].
    destruct mem_type as [| | |s| |]; try reflexivity.
    destruct (String.eqb s "experience"); reflexivity. }
  split; [reflexivity |].
  split; [apply elem_of_union_l, elem_of_singleton; reflexivity |].
  split; [reflexivity |]. split; [apply union_subseteq_r |].
  split; [reflexivity |]. split; [reflexivity |].
  unfold inst_dir. rewrite (assoc_L (∪)), (idemp_L (∪)). reflexivity.
Qed.

End Locations.

(** ** The access gate *)

Section AccessGate.

Context `{RT : PyRuntime}.

Import App.

Lemma prefix_inv (p s : string) :
  String.prefix p s = true → ∃ r, s = p +:+ r.
Proof.
  revert s. induction p as [|c p IH]; intros s H.
  - exists s. reflexivity.
  - destruct s as [|d s]; [discriminate H |].
    cbn [String.prefix] in H.
    destruct (ascii_dec c d) as [<- |]; [| discriminate H].
    destruct (IH s H) as [r ->]. exists r. reflexivity.
Qed.

Lemma split_nonempty (c : ascii) (s : string) : Py.split c s ≠ [].
Proof.
  destruct s as [|d s]; cbn [Py.split]; [discriminate |].
  destruct (Ascii.eqb c d); [discriminate |].
  destruct (Py.split c s); discriminate.
Qed.

Lemma split_bearer (s : string) :
  Py.startswith s "Bearer " = true → ∃ key, Py.split " " s !! 1%nat = Some key.
Proof.
  intros H. destruct (prefix_inv _ _ H) as [r ->].
  pose proof (split_nonempty " " r) as Hne.
  cbv [append]. cbn.
  destruct (Py.split " " r) as [|key ps]; [congruence |].
  exists key. reflexivity.
Qed.

Lemma gate_unauthenticated (VALID_KEYS : gset string) (r : route) (req : request)
    (w : world) :
  authorization req = None
  ∨ (∃ s, authorization req = Some s ∧ Py.startswith s "Bearer " = false) →
  handle VALID_KEYS r req w
  = (Response 401 (JObj [("error", JStr "Missing or invalid Authorization header")]), w).
Proof.
  intros [Hn | (s & Hs & Hp)]; unfold handle, serve, require_api_key.
  - rewrite Hn. reflexivity.
  - rewrite Hs, Hp. rewrite orb_true_r. reflexivity.
Qed.

Lemma gate_bearer (VALID_KEYS : gset string) (r : route) (req : request) (w : world)
    (s key : string) :
  authorization req = Some s → Py.startswith s "Bearer " = true →
  Py.split " " s !! 1%nat = Some key →
  handle VALID_KEYS r req w
  = if bool_decide (key ∈ VALID_KEYS) then serve (view_of r req key) w
    else (Response 403 (JObj [("error", JStr "Unauthorized")]), w).
Proof.
  intros Hs Hp Hk. unfold handle, require_api_key. rewrite Hs, Hp, Hk.
  assert (String.eqb s "" = false) as ->.
  { destruct s; [discriminate Hp | reflexivity]. }
  cbn [negb orb]. destruct (bool_decide (key ∈ VALID_KEYS)); reflexivity.
Qed.

(** C6. For each of the three operations: a request with no
    Authorization header, or with one that does not start with
    "Bearer ", is answered 401; a request whose Bearer credential is not
    in the key set is answered 403.  In both cases the world comes back
    as it was, with no call to the file system logged: nothing was
    created and nothing was read. *)
Theorem gate_rejects_before_filesystem (VALID_KEYS : gset string) (r : route)
    (req : request) (w : world) :
  (authorization req = None
   ∨ (∃ s, authorization req = Some s ∧ Py.startswith s "Bearer " = false) →
   handle VALID_KEYS r req w
   = (Response 401 (JObj [("error", JStr "Missing or invalid Authorization header")]), w))
  ∧ (∀ s, authorization req = Some s → Py.startswith s "Bearer " = true →
     ∃ key, Py.split " " s !! 1%nat = Some key
       ∧ (key ∉ VALID_KEYS →
          handle VALID_KEYS r req w
          = (Response 403 (JObj [("error", JStr "Unauthorized")]), w))).
Proof.
  split.
  - apply gate_unauthenticated.
  - intros s Hs Hp. destruct (split_bearer s Hp) as [key Hk].
    exists key. split; [exact Hk |]. intros Hnot.
    rewrite (gate_bearer VALID_KEYS r req w s key Hs Hp Hk).
    rewrite bool_decide_eq_false_2 by exact Hnot. reflexivity.
Qed.

End AccessGate.

(** ** Running the store *)

Section StoreSteps.

Context `{RT : PyRuntime}.

Import App.

Lemma append_empty_l (s : string) : "" +:+ s = s.
Proof. reflexivity. Qed.

Lemma append_cons (c : ascii) (s t : string) : String c s +:+ t = String c (s +:+ t).
Proof. reflexivity. Qed.

Lemma append_cancel_l (a b c : string) : a +:+ b = a +:+ c → b = c.
Proof.
  induction a as [|x a IH]; intros H; [exact H |].
  rewrite !append_cons in H. injection H as H. auto.
Qed.

(** Writing right after [open(p, "a")] adds the text at the end. *)
Lemma open_append_then_write p s (w : world) :
  (open_append p ;; write p s) w
  = (Ret tt, World (<[p := default "" (files w !! p) +:+ s]> (files w)) (dirs w)
                   (oplog w ++ [OpenAppend p])).
Proof.
  unfold bind, open_append, write. cbn [files dirs oplog].
  rewrite lookup_insert_eq, insert_insert_eq. reflexivity.
Qed.

Lemma path_exists_run p (w : world) :
  path_exists p w = (Ret (bool_decide (is_Some (files w !! p))), logged (Exists p) w).
Proof. reflexivity. Qed.

Lemma bind_run {A B} (m : M A) (k : A → M B) (w w' : world) (a : A) :
  m w = (Ret a, w') → bind m k w = k a w'.
Proof. intros H. unfold bind. rewrite H. reflexivity. Qed.

(** The structured and the raw location of a category are two files. *)
Lemma location_json_ne_raw instance_id mem_type :
  location instance_id mem_type true ≠ location instance_id mem_type false.
Proof.
  unfold location, Py.path_join.
  set (d := inst_dir instance_id). set (n := py_format mem_type).
  assert (Hext : ∀ e, Py.startswith (n +:+ "." +:+ e) "/" = Py.startswith (n +:+ ".") "/").
  { intros e. destruct n as [|c n]; [reflexivity |].
    unfold Py.startswith. rewrite !append_cons. cbn [String.prefix].
    destruct (ascii_dec "/" c); [destruct n |]; reflexivity. }
  rewrite !Hext.
  assert (Hne : "json" ≠ extension mem_type false).
  { unfold extension. destruct (neq_str mem_type "experience"); discriminate. }
  cbn [extension].
  destruct (Py.startswith (n +:+ ".") "/");
    [| destruct (String.eqb d "" || Py.endswith d "/")];
    intros H; repeat apply append_cancel_l in H; exact (Hne H).
Qed.

End StoreSteps.

Section Views.

Context `{RT : PyRuntime}.

Import App.

Lemma log_memory_raw now req instance_id d (w : world) :
  body req = JObj d →
  is_none (body_entry d) = false →
  is_dict (body_entry d) = false →
  let p := location instance_id (body_type (JStr "experience") d) false in
  log_memory now req instance_id w
  = (Ret (Response 200 (JObj [("status", JStr "logged")])),
     World (<[p := default "" (files w !! p) +:+ raw_line now (body_entry d)]> (files w))
           ({[ inst_dir instance_id ]} ∪ dirs w)
           (oplog w ++ [Makedirs (inst_dir instance_id); OpenAppend p])).
Proof.
  intros Hb Hn Hd p. unfold log_memory. rewrite Hb. cbn [data_get].
  unfold bind at 1. unfold ret at 1. unfold bind at 1. unfold ret at 1.
  fold (body_type (JStr "experience") d). fold (body_entry d).
  rewrite Hn, Hd.
  erewrite bind_run by apply get_file_path_run.
  erewrite bind_run by apply open_append_then_write.
  unfold ret, resolved. cbn [files dirs oplog]. rewrite <- app_assoc. reflexivity.
Qed.

Lemma log_memory_dict now req instance_id d fields (w : world) :
  body req = JObj d →
  body_entry d = JObj fields →
  let p := location instance_id (body_type (JStr "experience") d) true in
  let probe := if bool_decide (is_Some (files w !! p)) then [Exists p; OpenRead p]
               else [Exists p] in
  log_memory now req instance_id w
  = match existing_logs w p with
    | JArr l =>
        (Ret (Response 200 (JObj [("status", JStr "logged")])),
         World (<[p := json_dumps (JArr (l ++ [stamp (JObj fields) now]))]> (files w))
               ({[ inst_dir instance_id ]} ∪ dirs w)
               (oplog w ++ Makedirs (inst_dir instance_id) :: probe ++ [OpenWrite p]))
    | _ =>
        (Raise AttributeError,
         World (files w) ({[ inst_dir instance_id ]} ∪ dirs w)
               (oplog w ++ Makedirs (inst_dir instance_id) :: probe))
    end.
Proof.
  intros Hb He p probe. unfold log_memory. rewrite Hb. cbn [data_get].
  unfold bind at 1. unfold ret at 1. unfold bind at 1. unfold ret at 1.
  fold (body_type (JStr "experience") d). fold (body_entry d).
  rewrite He. cbn [is_none is_dict].
  erewrite bind_run by apply get_file_path_run.
  unfold existing_logs. subst p probe.
  unfold bind, path_exists, read_file, open_write, write, ret, raise, resolved, logged.
  cbn [files dirs oplog].
  set (p := location instance_id (body_type (JStr "experience") d) true).
  destruct (files w !! p) as [text|] eqn:Hp.
  - rewrite bool_decide_eq_true_2 by eauto.
    cbn [files dirs oplog]. rewrite Hp.
    destruct (default (JArr []) (json_loads text)) as [| | | |l|];
      cbn [py_append files dirs oplog]; rewrite <- ?app_assoc; try reflexivity.
    unfold ret. cbn [files dirs oplog].
    rewrite lookup_insert_eq, insert_insert_eq, <- !app_assoc. reflexivity.
  - rewrite bool_decide_eq_false_2 by (intros [? ?]; discriminate).
    cbn [py_append files dirs oplog]. unfold ret. cbn [files dirs oplog].
    rewrite lookup_insert_eq, insert_insert_eq, <- !app_assoc. reflexivity.
Qed.

Lemma get_memory_run req instance_id (w : world) :
  let category := JStr (default "experience" (arg_type req)) in
  let pj := location instance_id category true in
  let pt := location instance_id category false in
  fst (get_memory req instance_id w) = read_answer w pj pt
  ∧ files (snd (get_memory req instance_id w)) = files w
  ∧ dirs (snd (get_memory req instance_id w)) = {[ inst_dir instance_id ]} ∪ dirs w.
Proof.
  intros category pj pt. unfold get_memory, read_answer.
  erewrite bind_run by apply get_file_path_run.
  erewrite bind_run by apply get_file_path_run.
  erewrite bind_run by apply path_exists_run.
  fold category. fold pj. fold pt.
  unfold resolved, logged. cbn [files dirs oplog].
  assert (Hd : {[inst_dir instance_id]} ∪ ({[inst_dir instance_id]} ∪ dirs w)
               = {[inst_dir instance_id]} ∪ dirs w).
  { rewrite (assoc_L (∪)), (idemp_L (∪)). reflexivity. }
  destruct (files w !! pj) as [text|] eqn:Hj.
  - rewrite bool_decide_eq_true_2 by eauto.
    unfold bind, read_file. cbn [files dirs oplog]. rewrite Hj.
    destruct (json_loads text); cbn; auto.
  - rewrite bool_decide_eq_false_2 by (intros [? ?]; discriminate).
    unfold bind, path_exists, read_file, logged. cbn [files dirs oplog].
    destruct (files w !! pt) as [raw|] eqn:Ht.
    + rewrite bool_decide_eq_true_2 by eauto. cbn [files dirs oplog].
      rewrite Ht. cbn. auto.
    + rewrite bool_decide_eq_false_2 by (intros [? ?]; discriminate). cbn. auto.
Qed.

Lemma overwrite_memory_run req instance_id d (w : world) :
  body req = JObj d →
  truthy (body_type JNull d) = true →
  is_none (body_entry d) = false →
  let t := body_type JNull d in
  let pj := location instance_id t true in
  let pt := location instance_id t false in
  let dirs' := {[ inst_dir instance_id ]} ∪ dirs w in
  overwrite_memory req instance_id w
  = match body_entry d with
    | JObj _ | JArr _ =>
        (Ret (Response 200 (JObj [("status", JStr "overwritten")])),
         World (<[pj := json_dumps (body_entry d)]> (files w)) dirs'
               (oplog w ++ [Makedirs (inst_dir instance_id); OpenWrite pj]))
    | JStr text =>
        (Ret (Response 200 (JObj [("status", JStr "overwritten")])),
         World (<[pt := Py.strip text +:+ Py.nl]> (files w)) dirs'
               (oplog w ++ [Makedirs (inst_dir instance_id); OpenWrite pt]))
    | _ =>
        (Raise AttributeError,
         World (<[pt := ""]> (files w)) dirs'
               (oplog w ++ [Makedirs (inst_dir instance_id); OpenWrite pt]))
    end.
Proof.
  intros Hb Ht Hn t pj pt dirs'. unfold overwrite_memory. rewrite Hb. cbn [data_get].
  unfold bind at 1. unfold ret at 1. unfold bind at 1. unfold ret at 1.
  fold (body_type JNull d). fold (body_entry d). rewrite Ht, Hn. cbn [negb orb].
  subst t pj pt dirs'.
  destruct (body_entry d) as [| | |text|l|fields]; cbn [is_dict is_list orb];
    erewrite bind_run by apply get_file_path_run;
    unfold bind, open_write, write, py_strip, ret, raise, resolved;
    cbn [files dirs oplog];
    rewrite ?lookup_insert_eq, ?insert_insert_eq, <- ?app_assoc; reflexivity.
Qed.

Lemma serve_run (view : M response) (w : world) :
  serve view w = (reply (fst (view w)), snd (view w)).
Proof. unfold serve. destruct (view w) as [[r|e] w']; reflexivity. Qed.



Lemma append_assoc (a b c : string) : (a +:+ b) +:+ c = a +:+ (b +:+ c).
Proof.
  induction a as [|x a IH]; [reflexivity |].
  rewrite !append_cons, IH. reflexivity.
Qed.

Lemma append_empty_r (a : string) : a +:+ "" = a.
Proof. induction a as [|x a IH]; [reflexivity |]. rewrite append_cons, IH. reflexivity. Qed.

Lemma log_memory_untyped_text now req text instance_id (w : world) :
  format_str_id → untyped_text req text →
  let p := Py.path_join (inst_dir instance_id) "experience.log" in
  serve (log_memory now req instance_id) w
  = (logged_ok,
     World (<[p := default "" (files w !! p) +:+ ("[" +:+ now +:+ "] " +:+ text +:+ Py.nl)]>
              (files w))
           ({[ inst_dir instance_id ]} ∪ dirs w)
           (oplog w ++ [Makedirs (inst_dir instance_id); OpenAppend p])).
Proof.
  intros Hfmt (d & Hb & Ht & He) p. rewrite serve_run.
  rewrite (log_memory_raw now req instance_id d w Hb);
    unfold body_entry, body_type; rewrite ?He, ?Ht; try reflexivity.
  cbn [default from_option fst snd reply]. unfold raw_line, location, id.
  rewrite !Hfmt. reflexivity.
Qed.


Lemma serve_all_cons (view : M response) (views : list (M response)) (w : world) :
  serve_all (view :: views) w
  = (fst (serve view w) :: fst (serve_all views (snd (serve view w))),
     snd (serve_all views (snd (serve view w)))).
Proof.
  cbn [serve_all]. destruct (serve view w) as [r w1]. cbn [fst snd].
  destruct (serve_all views w1). reflexivity.
Qed.

Lemma dict_get_set {V} (k k' : string) (v : V) (d : list (string * V)) :
  Py.dict_get k' (Py.dict_set k v d)
  = if String.eqb k' k then Some v else Py.dict_get k' d.
Proof.
  induction d as [|[k0 v0] d IH]; cbn [Py.dict_set Py.dict_get].
  - destruct (String.eqb_spec k' k); reflexivity.
  - destruct (String.eqb_spec k k0) as [<- |Hne]; cbn [Py.dict_get].
    + destruct (String.eqb_spec k' k); reflexivity.
    + rewrite IH. destruct (String.eqb_spec k' k0) as [-> |]; [| reflexivity].
      destruct (String.eqb_spec k0 k); [congruence | reflexivity].
Qed.

Lemma log_memory_structured now req category fields logs instance_id (w : world) :
  dump_load_roundtrip → structured_append category req fields →
  let p := location instance_id (JStr category) true in
  existing_logs w p = JArr logs →
  let entry := JObj (Py.dict_set "timestamp" (JStr now) fields) in
  let w1 := snd (serve (log_memory now req instance_id) w) in
  fst (serve (log_memory now req instance_id) w) = logged_ok
  ∧ files w1 !! p = Some (json_dumps (JArr (logs ++ [entry])))
  ∧ existing_logs w1 p = JArr (logs ++ [entry]).
Proof.
  intros Hrt (d & Hb & Ht & He) p Hlogs entry w1. subst w1.
  rewrite serve_run. cbn [fst snd].
  assert (He' : body_entry d = JObj fields) by (unfold body_entry; rewrite He; reflexivity).
  rewrite (log_memory_dict now req instance_id d fields w Hb He').
  rewrite Ht. fold p. rewrite Hlogs. cbn [fst snd reply files stamp].
  unfold existing_logs. cbn [files]. rewrite lookup_insert_eq, Hrt. auto.
Qed.



End Views.

(** ** The key registry *)

Section Registry.

Context `{RT : PyRuntime}.

Lemma split1_contains (c : ascii) (s : string) :
  Py.contains c s = true → Py.split1 c s = [before_first c s; after_first c s].
Proof.
  induction s as [|d s IH]; cbn [Py.contains Py.split1 before_first after_first];
    [discriminate |].
  destruct (Ascii.eqb c d); [reflexivity |].
  intros H. rewrite (IH H). reflexivity.
Qed.

Lemma app_whitelist_line (line : string) :
  App.whitelist_line line = Ret (credential_of_line line).
Proof.
  unfold App.whitelist_line, credential_of_line, entry_of_line.
  destruct (String.eqb (Py.strip line) ""); [reflexivity |].
  cbn [orb]. destruct (Py.startswith (Py.strip line) "#"); [reflexivity |].
  destruct (Py.contains "," (Py.strip line)) eqn:Hc; [| reflexivity].
  rewrite (split1_contains _ _ Hc). reflexivity.
Qed.

Lemma worker_whitelist_line (line : string) :
  Worker.whitelist_line line = Ret (entry_of_line line).
Proof.
  unfold Worker.whitelist_line, entry_of_line.
  destruct (String.eqb (Py.strip line) ""); [reflexivity |].
  cbn [orb]. destruct (Py.startswith (Py.strip line) "#"); [reflexivity |].
  destruct (Py.contains "," (Py.strip line)) eqn:Hc; [| reflexivity].
  rewrite (split1_contains _ _ Hc). reflexivity.
Qed.

Lemma app_whitelist_loop (lines : list string) (keys : gset string) :
  fst (App.whitelist_loop lines keys) = Ret tt
  ∧ ∀ key, key ∈ snd (App.whitelist_loop lines keys)
           ↔ key ∈ keys ∨ ∃ line, line ∈ lines ∧ credential_of_line line = Some key.
Proof.
  revert keys. induction lines as [|line lines IH]; intros keys.
  - cbn. split; [reflexivity |]. intros key. split; [auto |].
    intros [H | (line & Hin & _)]; [exact H |]. inversion Hin.
  - cbn [App.whitelist_loop]. rewrite app_whitelist_line.
    destruct (credential_of_line line) as [k|] eqn:Hk.
    + destruct (IH ({[k]} ∪ keys)) as [Hret Hmem]. split; [exact Hret |].
      intros key. rewrite Hmem, elem_of_union, elem_of_singleton. split.
      * intros [[-> | H] | (l & Hin & Hl)]; [right | left | right]; auto.
        -- exists line. split; [left | exact Hk].
        -- exists l. split; [right; exact Hin | exact Hl].
      * intros [H | (l & Hin & Hl)]; [auto |].
        apply elem_of_cons in Hin as [-> | Hin].
        -- left. left. congruence.
        -- right. eauto.
    + destruct (IH keys) as [Hret Hmem]. split; [exact Hret |].
      intros key. rewrite Hmem. split.
      * intros [H | (l & Hin & Hl)]; [auto |]. right. exists l.
        split; [right; exact Hin | exact Hl].
      * intros [H | (l & Hin & Hl)]; [auto |].
        apply elem_of_cons in Hin as [-> | Hin]; [congruence |]. right. eauto.
Qed.

Lemma worker_whitelist_loop (lines : list string) (bots : list (string * string)) :
  Worker.whitelist_loop lines bots = (Ret tt, foldl bind_line bots lines).
Proof.
  revert bots. induction lines as [|line lines IH]; intros bots; [reflexivity |].
  cbn [Worker.whitelist_loop foldl]. rewrite worker_whitelist_line. unfold bind_line at 2.
  destruct (entry_of_line line) as [[name key]|]; apply IH.
Qed.

Lemma bound_from_line (lines : list string) (bots : list (string * string))
    (name key : string) :
  Py.dict_get name (foldl bind_line bots lines) = Some key →
  Py.dict_get name bots = Some key
  ∨ ∃ line, line ∈ lines ∧ entry_of_line line = Some (name, key).
Proof.
  revert bots. induction lines as [|line lines IH]; intros bots; cbn [foldl]; [auto |].
  intros H. destruct (IH _ H) as [Hb | (l & Hin & Hl)].
  - unfold bind_line in Hb. destruct (entry_of_line line) as [[n k]|] eqn:He; [| auto].
    rewrite dict_get_set in Hb. destruct (String.eqb_spec name n) as [-> |]; [| auto].
    injection Hb as ->. right. exists line. split; [left | exact He].
  - right. exists l. split; [right; exact Hin | exact Hl].
Qed.

Lemma last_line_binds (lines : list string) (bots : list (string * string))
    (name key : string) :
  Py.dict_get name bots = Some key →
  (∀ l, l ∈ lines → fst <$> entry_of_line l ≠ Some name) →
  Py.dict_get name (foldl bind_line bots lines) = Some key.
Proof.
  revert bots. induction lines as [|line lines IH]; intros bots Hb Hno; [exact Hb |].
  cbn [foldl]. apply IH.
  - unfold bind_line. destruct (entry_of_line line) as [[n k]|] eqn:He; [| exact Hb].
    rewrite dict_get_set. destruct (String.eqb_spec name n) as [-> |]; [| exact Hb].
    exfalso. apply (Hno line); [left |]. rewrite He. reflexivity.
  - intros l Hl. apply Hno. right. exact Hl.
Qed.


End Registry.

(** ** Namespaces *)

Section Namespaces.

Context `{RT : PyRuntime}.

Import App.

Lemma contains_app (c : ascii) (a b : string) :
  Py.contains c (a +:+ b) = Py.contains c a || Py.contains c b.
Proof.
  induction a as [|d a IH]; [reflexivity |].
  rewrite append_cons. cbn [Py.contains]. destruct (Ascii.eqb c d); auto.
Qed.

Lemma endswith_app (a b : string) (c : ascii) :
  b ≠ "" → Py.endswith (a +:+ b) c = Py.endswith b c.
Proof.
  intros Hb. induction a as [|d a IH]; [reflexivity |].
  rewrite append_cons. cbn [Py.endswith]. rewrite IH.
  destruct (a +:+ b) eqn:Hab; [| reflexivity].
  destruct a; [destruct (Hb Hab) | discriminate Hab].
Qed.

Lemma endswith_contains (s : string) (c : ascii) :
  Py.endswith s c = true → Py.contains c s = true.
Proof.
  induction s as [|d s IH]; [discriminate |].
  cbn [Py.endswith Py.contains]. destruct s as [|e s].
  - intros H. apply Ascii.eqb_eq in H as ->. rewrite Ascii.eqb_refl. reflexivity.
  - intros H. rewrite (IH H). destruct (Ascii.eqb c d); reflexivity.
Qed.

Lemma startswith_contains (s : string) :
  Py.startswith s "/" = true → Py.contains "/" s = true.
Proof.
  intros H. destruct (prefix_inv _ _ H) as [r ->]. reflexivity.
Qed.

Lemma before_first_app (c : ascii) (a b : string) :
  Py.contains c a = false → before_first c (a +:+ String c b) = a.
Proof.
  induction a as [|d a IH]; cbn [Py.contains].
  - intros _. rewrite append_empty_l. cbn [before_first].
    rewrite Ascii.eqb_refl. reflexivity.
  - rewrite append_cons. cbn [before_first].
    destruct (Ascii.eqb c d); [discriminate |]. intros H. rewrite (IH H). reflexivity.
Qed.

Lemma memory_base_shape :
  MEMORY_BASE ≠ "" ∧ Py.endswith MEMORY_BASE "/" = false.
Proof.
  unfold MEMORY_BASE, Py.path_join.
  assert (Py.startswith "memory_data" "/" = false) as -> by reflexivity.
  destruct (String.eqb app_dir "" || Py.endswith app_dir "/").
  - split; [destruct app_dir; discriminate |].
    rewrite endswith_app by discriminate. reflexivity.
  - split; [destruct app_dir; discriminate |].
    rewrite endswith_app by discriminate. reflexivity.
Qed.

Lemma namespace_path (key name : string) :
  slash_free key = true → slash_free name = true →
  Py.path_join (inst_dir key) name = MEMORY_BASE +:+ "/" +:+ relative key name.
Proof.
  unfold slash_free. intros Hk Hn.
  apply negb_true_iff in Hk, Hn.
  destruct memory_base_shape as [Hne Hend].
  assert (Hstart : ∀ s, Py.contains "/" s = false → Py.startswith s "/" = false).
  { intros s Hs. destruct (Py.startswith s "/") eqn:E; [| reflexivity].
    apply startswith_contains in E. congruence. }
  assert (Hbase : String.eqb MEMORY_BASE "" = false).
  { destruct (String.eqb_spec MEMORY_BASE ""); congruence. }
  unfold inst_dir, relative, Py.path_join.
  rewrite (Hstart key Hk), (Hstart name Hn), Hbase, Hend. cbn [orb].
  destruct (String.eqb_spec key "") as [-> | Hkey].
  - rewrite !append_assoc.
    rewrite (endswith_app MEMORY_BASE "/") by discriminate.
    replace (String.eqb (MEMORY_BASE +:+ "/") "") with false
      by (destruct MEMORY_BASE; [congruence | reflexivity]).
    cbn [orb Py.endswith Ascii.eqb Bool.eqb]. cbn. reflexivity.
  - rewrite !append_assoc.
    replace (String.eqb (MEMORY_BASE +:+ "/" +:+ key) "") with false
      by (destruct MEMORY_BASE; [congruence | reflexivity]).
    change (MEMORY_BASE +:+ "/" +:+ key) with (MEMORY_BASE +:+ ("/" +:+ key)).
    rewrite (endswith_app MEMORY_BASE ("/" +:+ key)) by discriminate.
    rewrite (endswith_app "/" key) by exact Hkey.
    destruct (Py.endswith key "/") eqn:E.
    + apply endswith_contains in E. congruence.
    + cbn [orb]. rewrite ?append_assoc. reflexivity.
Qed.

(** Two tenants with plain keys share no file of a plain name. *)
Lemma namespaces_disjoint (k1 k2 n1 n2 : string) :
  slash_free k1 = true → slash_free k2 = true →
  slash_free n1 = true → slash_free n2 = true →
  k1 ≠ k2 →
  Py.path_join (inst_dir k1) n1 ≠ Py.path_join (inst_dir k2) n2.
Proof.
  intros Hk1 Hk2 Hn1 Hn2 Hne.
  rewrite (namespace_path k1 n1 Hk1 Hn1), (namespace_path k2 n2 Hk2 Hn2).
  intros H. apply append_cancel_l in H. apply append_cancel_l in H.
  unfold slash_free in *. apply negb_true_iff in Hk1, Hk2, Hn1, Hn2.
  unfold relative in H.
  destruct (String.eqb_spec k1 "") as [-> | E1], (String.eqb_spec k2 "") as [-> | E2].
  - congruence.
  - subst n1. rewrite contains_app in Hn1.
    apply orb_false_iff in Hn1 as [_ Hn1]. discriminate Hn1.
  - subst n2. rewrite contains_app in Hn2.
    apply orb_false_iff in Hn2 as [_ Hn2]. discriminate Hn2.
  - apply (f_equal (before_first "/")) in H.
    change ("/" +:+ n1) with (String "/" n1) in H.
    change ("/" +:+ n2) with (String "/" n2) in H.
    rewrite !before_first_app in H by assumption. congruence.
Qed.

End Namespaces.

(** ** Tenant isolation *)

Section Isolation.

Context `{RT : PyRuntime}.

Import App.

Lemma log_memory_no_dict now req instance_id (w : world) :
  is_dict (body req) = false →
  log_memory now req instance_id w = (Raise AttributeError, w).
Proof. unfold log_memory. destruct (body req); try discriminate; reflexivity. Qed.

Lemma log_memory_no_entry now req instance_id d (w : world) :
  body req = JObj d → is_none (body_entry d) = true →
  log_memory now req instance_id w
  = (Ret (Response 400 (JObj [("error", JStr "Missing 'entry'")])), w).
Proof.
  intros Hb Hn. unfold log_memory. rewrite Hb. cbn [data_get].
  unfold bind at 1. unfold ret at 1. unfold bind at 1. unfold ret at 1.
  fold (body_entry d). rewrite Hn. reflexivity.
Qed.

Lemma overwrite_memory_no_dict req instance_id (w : world) :
  is_dict (body req) = false →
  overwrite_memory req instance_id w = (Raise AttributeError, w).
Proof. unfold overwrite_memory. destruct (body req); try discriminate; reflexivity. Qed.

Lemma overwrite_memory_missing req instance_id d (w : world) :
  body req = JObj d →
  negb (truthy (body_type JNull d)) || is_none (body_entry d) = true →
  overwrite_memory req instance_id w
  = (Ret (Response 400 (JObj [("error", JStr "Missing 'type' or 'entry'")])), w).
Proof.
  intros Hb Hn. unfold overwrite_memory. rewrite Hb. cbn [data_get].
  unfold bind at 1. unfold ret at 1. unfold bind at 1. unfold ret at 1.
  fold (body_type JNull d). fold (body_entry d). rewrite Hn. reflexivity.
Qed.

(** A view function looks at, and writes, only the two files of its
    tenant and category; what it answers and what it writes depend on
    nothing else. *)
Lemma view_local (r : route) (req : request) (key : string) (w w' : world) :
  let pj := location key (route_category r req) true in
  let pt := location key (route_category r req) false in
  files w !! pj = files w' !! pj → files w !! pt = files w' !! pt →
  ∃ u, (∀ p text, u = Some (p, text) → p = pj ∨ p = pt)
       ∧ fst (serve (view_of r req key) w) = fst (serve (view_of r req key) w')
       ∧ files (snd (serve (view_of r req key) w)) = update u (files w)
       ∧ files (snd (serve (view_of r req key) w')) = update u (files w').
Proof.
  intros pj pt Hj Ht. rewrite !serve_run. cbn [fst snd].
  destruct r as [now| |]; cbn [view_of route_category] in *.
  - destruct (body req) as [| | | | |d] eqn:Hb;
      try (exists None; rewrite !log_memory_no_dict by (rewrite Hb; reflexivity);
           cbn; split; [discriminate | solve [auto]]).
    destruct (is_none (body_entry d)) eqn:Hn.
    { exists None. rewrite !(log_memory_no_entry now req key d) by assumption.
      cbn. split; [discriminate | auto]. }
    destruct (body_entry d) as [| | | | |fields] eqn:He; try discriminate Hn.
    5:{ rewrite !(log_memory_dict now req key d fields) by assumption.
        fold pj. unfold existing_logs. rewrite <- Hj.
        destruct (match files w !! pj with
                  | Some text => default (JArr []) (json_loads text)
                  | None => JArr []
                  end) as [| | | |l|];
          try (exists None; cbn; split; [discriminate | solve [auto]]).
        exists (Some (pj, json_dumps (JArr (l ++ [stamp (JObj fields) now])))). cbn.
        split; [intros ? ? [= <- _]; auto | auto]. }
    all: exists (Some (pt, default "" (files w !! pt) +:+ raw_line now (body_entry d)));
      rewrite !(log_memory_raw now req key d) by (rewrite ?He; auto);
      fold pt; rewrite <- Ht; cbn;
      (split; [intros ? ? [= <- _]; auto | auto]).
  - exists None.
    destruct (get_memory_run req key w) as (-> & -> & _).
    destruct (get_memory_run req key w') as (-> & -> & _).
    fold pj. fold pt. unfold read_answer. rewrite <- Hj, <- Ht.
    cbn. split; [discriminate | auto].
  - destruct (body req) as [| | | | |d] eqn:Hb;
      try (exists None; rewrite !overwrite_memory_no_dict by (rewrite Hb; reflexivity);
           cbn; split; [discriminate | solve [auto]]).
    destruct (negb (truthy (body_type JNull d)) || is_none (body_entry d)) eqn:Hm.
    { exists None. rewrite !(overwrite_memory_missing req key d) by assumption.
      cbn. split; [discriminate | auto]. }
    apply orb_false_iff in Hm as [Htr Hn]. apply negb_false_iff in Htr.
    rewrite !(overwrite_memory_run req key d) by assumption.
    fold pj. fold pt.
    destruct (body_entry d) as [|b|n|text|l|fields] eqn:He;
      [ exists (Some (pt, ""))
      | exists (Some (pt, ""))
      | exists (Some (pt, ""))
      | exists (Some (pt, Py.strip text +:+ Py.nl))
      | exists (Some (pj, json_dumps (JArr l)))
      | exists (Some (pj, json_dumps (JObj fields))) ];
      cbn; (split; [intros ? ? [= <- _]; auto | auto]).
Qed.

Lemma handle_no_key VALID_KEYS r req (w : world) :
  presented_key req = None → snd (handle VALID_KEYS r req w) = w.
Proof.
  unfold presented_key, handle, require_api_key.
  destruct (authorization req) as [s|]; [| reflexivity].
  destruct (String.eqb s ""); [reflexivity |]. cbn [orb].
  destruct (Py.startswith s "Bearer "); [| reflexivity].
  intros ->. reflexivity.
Qed.

Lemma handle_key VALID_KEYS r req key (w : world) :
  presented_key req = Some key →
  handle VALID_KEYS r req w
  = if bool_decide (key ∈ VALID_KEYS) then serve (view_of r req key) w
    else (Response 403 (JObj [("error", JStr "Unauthorized")]), w).
Proof.
  unfold presented_key. destruct (authorization req) as [s|] eqn:Hs; [| discriminate].
  destruct (Py.startswith s "Bearer ") eqn:Hp; [| discriminate].
  intros Hk. exact (gate_bearer VALID_KEYS r req w s key Hs Hp Hk).
Qed.

Lemma location_name key category as_json :
  slash_free (py_format category) = true →
  ∃ name, slash_free name = true
          ∧ location key category as_json = Py.path_join (inst_dir key) name.
Proof.
  intros Hc. eexists. split; [| reflexivity].
  unfold slash_free in *. rewrite !contains_app.
  apply negb_true_iff in Hc. rewrite Hc. cbn [orb].
  unfold extension. destruct as_json; [reflexivity |].
  destruct (neq_str category "experience"); reflexivity.
Qed.

Lemma agree_update (k : string) (u : option (string * string)) (w w' w1 w1' : world) :
  agree k w w' →
  files w1 = update u (files w) → files w1' = update u (files w') →
  agree k w1 w1'.
Proof.
  intros Hag H1 H1' name Hname. rewrite H1, H1'.
  destruct u as [[p text]|]; cbn [update]; [| exact (Hag name Hname)].
  destruct (decide (p = Py.path_join (inst_dir k) name)) as [-> | Hne].
  - rewrite !lookup_insert_eq. reflexivity.
  - rewrite !lookup_insert_ne by exact Hne. exact (Hag name Hname).
Qed.

Lemma step_own VALID_KEYS (k : string) (c : route * request) (w w' : world) :
  presented_key (snd c) = Some k → plain c → agree k w w' →
  fst (handle VALID_KEYS (fst c) (snd c) w) = fst (handle VALID_KEYS (fst c) (snd c) w')
  ∧ agree k (snd (handle VALID_KEYS (fst c) (snd c) w))
            (snd (handle VALID_KEYS (fst c) (snd c) w')).
Proof.
  destruct c as [r req]. cbn [fst snd]. intros Hk Hplain Hag.
  rewrite !(handle_key VALID_KEYS r req k) by exact Hk.
  destruct (bool_decide (k ∈ VALID_KEYS)); [| split; [reflexivity | exact Hag]].
  destruct (Hplain k Hk) as [_ Hcat]. cbn [fst snd] in Hcat.
  destruct (location_name k _ true Hcat) as (nj & Hnj & Hj).
  destruct (location_name k _ false Hcat) as (nt & Hnt & Ht).
  destruct (view_local r req k w w') as (u & _ & Hans & Hw & Hw').
  - rewrite Hj. exact (Hag nj Hnj).
  - rewrite Ht. exact (Hag nt Hnt).
  - split; [exact Hans |]. exact (agree_update k u w w' _ _ Hag Hw Hw').
Qed.

Lemma step_other VALID_KEYS (k : string) (c : route * request) (w : world) :
  slash_free k = true → presented_key (snd c) ≠ Some k → plain c →
  agree k w (snd (handle VALID_KEYS (fst c) (snd c) w)).
Proof.
  destruct c as [r req]. cbn [fst snd]. intros Hk Hother Hplain.
  destruct (presented_key req) as [key|] eqn:Hkey.
  2:{ rewrite (handle_no_key VALID_KEYS r req w Hkey). intros name _. reflexivity. }
  rewrite (handle_key VALID_KEYS r req key) by exact Hkey.
  destruct (bool_decide (key ∈ VALID_KEYS)); [| intros name _; reflexivity].
  destruct (Hplain key Hkey) as [Hkeyplain Hcat]. cbn [fst snd] in Hcat.
  destruct (location_name key _ true Hcat) as (nj & Hnj & Hj).
  destruct (location_name key _ false Hcat) as (nt & Hnt & Ht).
  destruct (view_local r req key w w) as (u & Hu & _ & Hw & _); [reflexivity.. |].
  intros name Hname. rewrite Hw.
  destruct u as [[p text]|]; cbn [update]; [| reflexivity].
  symmetry. apply lookup_insert_ne.
  assert (key ≠ k) by congruence.
  destruct (Hu p text eq_refl) as [-> | ->]; [rewrite Hj | rewrite Ht];
    apply namespaces_disjoint; assumption.
Qed.

Lemma observe_purge VALID_KEYS (k : string) (trace : list (route * request)) :
  slash_free k = true → Forall plain trace →
  ∀ w w', agree k w w' →
    observe VALID_KEYS k trace w = observe VALID_KEYS k (purge k trace) w'.
Proof.
  intros Hk. induction trace as [|c trace IH]; intros Hall w w' Hag; [reflexivity |].
  apply Forall_cons in Hall as [Hc Hall]. unfold purge in *.
  destruct (decide (presented_key (snd c) = Some k)) as [Hown | Hother].
  - rewrite filter_cons_True by exact Hown. cbn [observe].
    rewrite !bool_decide_eq_true_2 by exact Hown.
    destruct (step_own VALID_KEYS k c w w' Hown Hc Hag) as [-> Hag1].
    f_equal. apply IH; assumption.
  - rewrite filter_cons_False by exact Hother. cbn [observe].
    rewrite bool_decide_eq_false_2 by exact Hother.
    apply IH; [assumption |].
    intros name Hname.
    rewrite <- (step_other VALID_KEYS k c w Hk Hother Hc name Hname).
    exact (Hag name Hname).
Qed.

(** Isolation for plain names.  Take credentials and categories with
    no path separator in them.  Then what a tenant is answered over any
    run of requests, reads included, is what it would be answered had no
    other tenant's request been served, whatever categories the others
    use; and each request served for a credential changes no file but
    one of that credential's namespace directory. *)
Theorem tenant_isolation (VALID_KEYS : gset string) (k : string)
    (trace : list (route * request)) (w : world) :
  slash_free k = true → Forall plain trace →
  observe VALID_KEYS k trace w = observe VALID_KEYS k (purge k trace) w
  ∧ Forall (λ c, ∀ key w0 p,
        presented_key (snd c) = Some key →
        files (snd (handle VALID_KEYS (fst c) (snd c) w0)) !! p ≠ files w0 !! p →
        ∃ name, slash_free name = true ∧ p = Py.path_join (inst_dir key) name) trace.
Proof.
  intros Hk Hall. split.
  - apply observe_purge; [exact Hk | exact Hall |]. intros name _. reflexivity.
  - apply Forall_forall. intros [r req] Hin key w0 p Hkey Hchanged.
    cbn [fst snd] in *.
    rewrite Forall_forall in Hall. destruct (Hall _ Hin key Hkey) as [_ Hcat].
    cbn [fst snd] in Hcat.
    rewrite (handle_key VALID_KEYS r req key) in Hchanged by exact Hkey.
    destruct (bool_decide (key ∈ VALID_KEYS)); [| cbn in Hchanged; congruence].
    destruct (view_local r req key w0 w0) as (u & Hu & _ & Hw & _); [reflexivity.. |].
    rewrite Hw in Hchanged.
    destruct u as [[q text]|]; cbn [update] in Hchanged; [| congruence].
    destruct (decide (q = p)) as [<- | Hne];
      [| rewrite lookup_insert_ne in Hchanged by exact Hne; congruence].
    destruct (Hu q text eq_refl) as [-> | ->]; apply location_name; exact Hcat.
Qed.

End Isolation.

(** ** The dispatcher *)

Section Dispatcher.

Import Worker.

Variable handlers : list (string * handler).

Lemma for_each_cons {A} (x : A) (rest : list A) (body : A → W unit) (out : list event) :
  body x = (out, Ret tt) →
  for_each (x :: rest) body = (out ++ fst (for_each rest body), snd (for_each rest body)).
Proof. intros H. cbn [for_each]. unfold and_then. rewrite H. reflexivity. Qed.

(** The first exception leaves the loop: what follows the item that
    raised is not run. *)
Lemma for_each_raise {A} (done : list A) (x : A) (rest : list A) (body : A → W unit)
    (out : list event) (e : exn) :
  Forall (λ y, snd (body y) = Ret tt) done →
  body x = (out, Raise e) →
  for_each (done ++ x :: rest) body = (fst (for_each done body) ++ out, Raise e).
Proof.
  intros Hdone Hx. induction done as [|y done IH]; cbn [app for_each].
  - unfold and_then. rewrite Hx. reflexivity.
  - apply Forall_cons in Hdone as [Hy Hdone]. rewrite (IH Hdone).
    unfold and_then. destruct (body y) as [oy [[]|ey]]; [| discriminate Hy].
    cbn [fst snd]. rewrite app_assoc. reflexivity.
Qed.

Lemma api_get_memory_failed (api : remote) (bot_key mem_type : string) (e : exn) :
  api bot_key mem_type = Raise e →
  api_get_memory api bot_key mem_type = ([GetMemoryFailed bot_key mem_type], JNull).
Proof. intros H. unfold api_get_memory. rewrite H. reflexivity. Qed.

Lemma per_bot_all_failed (api : remote) (bot_name bot_key : string) :
  (∀ mem, mem ∈ MEMORY_TYPES → ∃ e, api bot_key mem = Raise e) →
  per_bot handlers api (bot_name, bot_key)
  = (Checking bot_name :: map (GetMemoryFailed bot_key) MEMORY_TYPES, Ret tt).
Proof.
  intros Hfail. unfold per_bot, MEMORY_TYPES in *. cbn [fetch_all].
  destruct (Hfail "core") as [e1 H1]; [set_solver |].
  destruct (Hfail "notebook") as [e2 H2]; [set_solver |].
  destruct (Hfail "experience") as [e3 H3]; [set_solver |].
  rewrite (api_get_memory_failed _ _ _ _ H1), (api_get_memory_failed _ _ _ _ H2),
    (api_get_memory_failed _ _ _ _ H3).
  reflexivity.
Qed.

Lemma cycle_sleeps (source : option string) (api : remote) :
  ∃ out, cycle handlers source api = out ++ [Sleeping].
Proof.
  unfold cycle. destruct (cycle_body handlers source api) as [out [[]|e]].
  - exists out. reflexivity.
  - exists (out ++ [Critical e]). rewrite <- app_assoc. reflexivity.
Qed.

Lemma turns_complete (env : nat → option string * remote) (k n : nat) :
  ∃ outs, length outs = n
          ∧ turns handlers env k n = concat (map (λ out, out ++ [Sleeping]) outs).
Proof.
  revert k. induction n as [|n IH]; intros k.
  - exists []. split; reflexivity.
  - destruct (cycle_sleeps (fst (env k)) (snd (env k))) as [out Hout].
    destruct (IH (S k)) as (outs & Hlen & Houts).
    exists (out :: outs). split; [cbn; congruence |].
    cbn [turns map concat]. rewrite Hout, Houts. reflexivity.
Qed.

(** C2, as the code has it.  Within one cycle a fetch that fails or
    times out is printed and gives no data for that tenant and category
    only: the category is skipped, and a tenant all of whose fetches
    fail is followed by the remaining tenants.  A descriptor that is not
    an object, or a handler that raises, is not contained: the exception
    leaves the loops, the tenants not yet reached are skipped for this
    cycle, and the cycle's single handler prints it.  In every case the
    cycle ends in its sleep and the next one starts: no failure ends the
    process. *)
Theorem cycle_failure_handling (source : option string) (api : remote) :
  (∀ key mem e, api key mem = Raise e →
     api_get_memory api key mem = ([GetMemoryFailed key mem], JNull))
  ∧ (∀ name key memories mem,
       per_memory handlers name key memories (mem, JNull) = ([], Ret tt))
  ∧ (∀ name key rest,
       (∀ mem, mem ∈ MEMORY_TYPES → ∃ e, api key mem = Raise e) →
       for_each ((name, key) :: rest) (per_bot handlers api)
       = (Checking name :: map (GetMemoryFailed key) MEMORY_TYPES
            ++ fst (for_each rest (per_bot handlers api)),
          snd (for_each rest (per_bot handlers api))))
  ∧ (∀ name key mem memories module, is_dict module = false →
       dispatch handlers name key mem memories module = ([], Raise AttributeError))
  ∧ (∀ name key mem memories fields t h out e,
       declared_type (JObj fields) = Ret (JStr t) →
       Py.dict_get t handlers = Some h →
       h name key (JObj fields) (Context mem memories) = (out, Raise e) →
       dispatch handlers name key mem memories (JObj fields)
       = (Running t name mem :: out, Raise e))
  ∧ (∀ done bot rest out e,
       snd (load_whitelist source) = done ++ bot :: rest →
       Forall (λ b, snd (per_bot handlers api b) = Ret tt) done →
       per_bot handlers api bot = (out, Raise e) →
       cycle handlers source api
       = fst (load_whitelist source) ++ fst (for_each done (per_bot handlers api))
           ++ out ++ [Critical e; Sleeping])
  ∧ (∃ out, cycle handlers source api = out ++ [Sleeping])
  ∧ (∀ env n, ∃ outs, length outs = n
       ∧ run_automations handlers env n
         = Live :: concat (map (λ out, out ++ [Sleeping]) outs)).
Proof.
  split; [apply api_get_memory_failed |].
  split; [reflexivity |].
  split.
  { intros name key rest Hfail.
    rewrite (for_each_cons _ _ _ _ (per_bot_all_failed api name key Hfail)).
    reflexivity. }
  split.
  { intros name key mem memories module Hd. unfold dispatch, declared_type, module_get.
    destruct module; try discriminate Hd; reflexivity. }
  split.
  { intros name key mem memories fields t h out e Ht Hh Hraise.
    unfold dispatch. rewrite Ht. cbn [handlers_get]. rewrite Hh. cbn [option_map].
    unfold and_then. rewrite Hraise. reflexivity. }
  split.
  { intros done bot rest out e Hbots Hdone Hbot.
    unfold cycle, cycle_body. destruct (load_whitelist source) as [o bots].
    cbn [fst snd] in *. subst bots.
    rewrite (for_each_raise done bot rest _ out e Hdone Hbot).
    unfold and_then. cbn [fst snd]. rewrite <- !app_assoc. reflexivity. }
  split; [apply cycle_sleeps |].
  intros env n. destruct (turns_complete env 0 n) as (outs & Hlen & Houts).
  exists outs. split; [exact Hlen |]. unfold run_automations. rewrite Houts. reflexivity.
Qed.

End Dispatcher.

(** ** The reference runtime meets the interface *)

Section Reference.

Import RefRuntime.

Lemma json_induction (P : json → Prop) :
  P JNull → (∀ b, P (JBool b)) → (∀ n, P (JNum n)) → (∀ s, P (JStr s)) →
  (∀ l, Forall P l → P (JArr l)) →
  (∀ d, Forall (λ m, P (snd m)) d → P (JObj d)) →
  ∀ v, P v.
Proof.
  intros Hnull Hbool Hnum Hstr Harr Hobj.
  fix IH 1. intros [|b|n|s|l|d].
  - exact Hnull.
  - apply Hbool.
  - apply Hnum.
  - apply Hstr.
  - apply Harr. induction l as [|x l IHl]; constructor; [apply IH | exact IHl].
  - apply Hobj. induction d as [|m d IHd]; constructor; [apply IH | exact IHd].
Qed.

Lemma length_append (a b : string) :
  String.length (a +:+ b) = (String.length a + String.length b)%nat.
Proof.
  induction a as [|c a IH]; [reflexivity |].
  rewrite append_cons. cbn [String.length]. rewrite IH. reflexivity.
Qed.

Lemma parse_string_escape (s rest : string) :
  parse_string (escape s +:+ String quote rest) = Some (s, rest).
Proof.
  induction s as [|c s IH].
  - reflexivity.
  - cbn [escape].
    destruct (Ascii.eqb c quote) eqn:Hq; [| destruct (Ascii.eqb c backslash) eqn:Hb];
      cbn [orb]; rewrite !append_cons; cbn [parse_string].
    + change (Ascii.eqb backslash quote) with false.
      rewrite Ascii.eqb_refl. cbv iota. rewrite IH. reflexivity.
    + change (Ascii.eqb backslash quote) with false.
      rewrite Ascii.eqb_refl. cbv iota. rewrite IH. reflexivity.
    + rewrite Hq, Hb, IH. reflexivity.
Qed.

Lemma all_num_uint (d : Decimal.uint) : all_num (NilEmpty.string_of_uint d) = true.
Proof. induction d; cbn [NilEmpty.string_of_uint all_num]; try rewrite IHd; reflexivity. Qed.

Lemma all_num_number (n : Z) : all_num (print_number n) = true ∧ print_number n ≠ "".
Proof.
  unfold print_number, NilZero.string_of_int, NilZero.string_of_uint.
  destruct (Z.to_int n) as [d|d]; destruct d; cbn [all_num];
    rewrite ?all_num_uint; split; try reflexivity; try discriminate.
  all: cbn [NilEmpty.string_of_uint all_num]; rewrite ?all_num_uint; reflexivity.
Qed.

Lemma span_num_all (s rest : string) :
  all_num s = true → ends_number rest → span_num (s +:+ rest) = (s, rest).
Proof.
  intros Hs Hrest. induction s as [|c s IH].
  - rewrite append_empty_l. destruct rest as [|c rest]; [reflexivity |].
    cbn [span_num]. cbn in Hrest. rewrite Hrest. reflexivity.
  - cbn [all_num] in Hs. apply andb_true_iff in Hs as [Hc Hs].
    rewrite append_cons. cbn [span_num]. rewrite Hc, (IH Hs). reflexivity.
Qed.

Lemma number_roundtrip (n : Z) :
  option_map Z.of_int (NilZero.int_of_string (print_number n)) = Some n.
Proof.
  unfold print_number. rewrite NilZero.isi.
  - cbn [option_map]. rewrite DecimalZ.of_to. reflexivity.
  - destruct n; cbn [Z.to_int]; try discriminate.
    intros [= H]. exact (DecimalPos.Unsigned.to_uint_nonnil _ H).
  - destruct n; cbn [Z.to_int]; try discriminate.
    intros [= H]. exact (DecimalPos.Unsigned.to_uint_nonnil _ H).
Qed.

Lemma ends_number_items (l : list json) (rest : string) :
  ends_number (items_rest print l +:+ String "]" rest).
Proof. destruct l; reflexivity. Qed.

Lemma ends_number_members (d : list (string * json)) (rest : string) :
  ends_number (members_rest print d +:+ String "}" rest).
Proof. destruct d; reflexivity. Qed.

Lemma items_read_back (l : list json) :
  Forall reads_back l →
  ∀ fuel rest, (String.length (items_rest print l) < fuel)%nat →
    parse_items fuel (items_rest print l +:+ String "]" rest) = Some (l, rest).
Proof.
  induction 1 as [|y l Hy Hl IH]; intros fuel rest Hfuel.
  - destruct fuel as [|f]; [lia | reflexivity].
  - destruct fuel as [|f]; [lia |].
    cbn [items_rest] in *. fold (items_rest print) in *.
    rewrite !length_append in Hfuel. cbn [String.length] in Hfuel.
    rewrite !append_assoc. rewrite append_cons, append_empty_l.
    cbn [parse_items]. change (Ascii.eqb "," "]") with false.
    change (Ascii.eqb "," ",") with true. cbv iota.
    rewrite (Hy f) by (try apply ends_number_items; lia).
    rewrite IH by lia. reflexivity.
Qed.

Lemma member_read_back (m : string * json) (fuel : nat) (rest : string) :
  reads_back (snd m) →
  (String.length (print (snd m)) < fuel)%nat → ends_number rest →
  parse_member fuel (print_string (fst m) +:+ ":" +:+ print (snd m) +:+ rest)
  = Some (m, rest).
Proof.
  intros Hm Hfuel Hrest. destruct fuel as [|f]; [lia |].
  unfold print_string. rewrite !append_cons, !append_assoc.
  cbn [parse_member expect]. rewrite Ascii.eqb_refl.
  rewrite append_cons, parse_string_escape.
  rewrite !append_empty_l.
  cbn [expect]. change (Ascii.eqb ":" ":") with true. cbv iota.
  rewrite (Hm f) by (try assumption; lia). destruct m; reflexivity.
Qed.

Lemma members_read_back (d : list (string * json)) :
  Forall (λ m, reads_back (snd m)) d →
  ∀ fuel rest, (String.length (members_rest print d) < fuel)%nat →
    parse_members fuel (members_rest print d +:+ String "}" rest) = Some (d, rest).
Proof.
  induction 1 as [|m d Hm Hd IH]; intros fuel rest Hfuel.
  - destruct fuel as [|f]; [lia | reflexivity].
  - destruct fuel as [|f]; [lia |].
    cbn [members_rest] in *. fold (members_rest print) in *.
    rewrite !length_append in Hfuel. cbn [String.length] in Hfuel.
    rewrite !append_assoc. rewrite append_cons, append_empty_l.
    cbn [parse_members]. change (Ascii.eqb "," "}") with false.
    change (Ascii.eqb "," ",") with true. cbv iota.
    rewrite member_read_back by (try apply ends_number_members; try assumption; lia).
    rewrite IH by lia. reflexivity.
Qed.

Lemma print_reads_back (v : json) : reads_back v.
Proof.
  induction v as [|b|n|s|l Hl|d Hd] using json_induction; intros fuel rest Hfuel Hrest.
  - destruct fuel as [|f]; [cbn [print print_string String.length] in Hfuel; lia | reflexivity].
  - destruct fuel as [|f]; [destruct b; cbn [print String.length] in Hfuel; lia | destruct b; reflexivity].
  - destruct (all_num_number n) as [Hall Hne]. cbn [print] in *.
    destruct (print_number n) as [|c r] eqn:Hp; [congruence |].
    destruct fuel as [|f]; [cbn [print print_string String.length] in Hfuel; lia |].
    pose proof Hall as Hc. cbn [all_num] in Hc. apply andb_true_iff in Hc as [Hc _].
    rewrite append_cons. cbn [parse]. rewrite Hc. rewrite <- append_cons.
    rewrite (span_num_all _ _ Hall Hrest).
    pose proof (number_roundtrip n) as Hn. rewrite Hp in Hn.
    destruct (NilZero.int_of_string (String c r)); [| discriminate Hn].
    cbn [option_map] in Hn. congruence.
  - destruct fuel as [|f]; [cbn [print print_string String.length] in Hfuel; lia |].
    cbn [print]. unfold print_string. rewrite append_cons, append_assoc.
    cbn [parse]. change (is_num_char quote) with false.
    change (Ascii.eqb quote "n") with false. change (Ascii.eqb quote "t") with false.
    change (Ascii.eqb quote "f") with false. rewrite Ascii.eqb_refl. cbv iota.
    rewrite append_cons, append_empty_l, parse_string_escape. reflexivity.
  - destruct fuel as [|f];
      [cbn [print] in Hfuel; rewrite append_cons in Hfuel;
       cbn [String.length] in Hfuel; lia |].
    cbn [print] in *. destruct l as [|x l].
    + cbn [parse]. destruct f; reflexivity.
    + apply Forall_cons in Hl as [Hx Hl].
      rewrite !length_append in Hfuel. cbn [String.length] in Hfuel.
      rewrite !append_assoc, append_cons, append_empty_l.
      rewrite (append_cons "]" "" rest), append_empty_l.
      cbn [parse]. change (is_num_char "[") with false.
      change (Ascii.eqb "[" "n") with false. change (Ascii.eqb "[" "t") with false.
      change (Ascii.eqb "[" "f") with false. change (Ascii.eqb "[" quote) with false.
      change (Ascii.eqb "[" "[") with true. cbv iota.
      rewrite (Hx f) by (try apply ends_number_items; lia).
      rewrite (items_read_back l Hl) by lia. reflexivity.
  - destruct fuel as [|f];
      [cbn [print] in Hfuel; rewrite append_cons in Hfuel;
       cbn [String.length] in Hfuel; lia |].
    cbn [print] in *. destruct d as [|m d].
    + reflexivity.
    + apply Forall_cons in Hd as [Hm Hd].
      rewrite !length_append in Hfuel. cbn [String.length] in Hfuel.
      rewrite !append_assoc, append_cons, append_empty_l.
      rewrite (append_cons "}" "" rest), append_empty_l.
      cbn [parse]. change (is_num_char "{") with false.
      change (Ascii.eqb "{" "n") with false. change (Ascii.eqb "{" "t") with false.
      change (Ascii.eqb "{" "f") with false. change (Ascii.eqb "{" quote) with false.
      change (Ascii.eqb "{" "[") with false. change (Ascii.eqb "{" "{") with true.
      cbv iota.
      assert (Hexp : ∀ t, expect "}" (print_string (fst m) +:+ t) = None) by reflexivity.
      rewrite Hexp.
      rewrite (member_read_back m f) by (try apply ends_number_members; try assumption; lia).
      rewrite (members_read_back d Hd) by lia. reflexivity.
Qed.

(** What the reference [json.dump] writes, the reference [json.load]
    reads back. *)
Lemma reference_roundtrip : @dump_load_roundtrip runtime.
Proof.
  intros v. cbn [json_dumps json_loads runtime]. unfold loads.
  pose proof (print_reads_back v (S (String.length (print v))) "") as H.
  rewrite append_empty_r in H. rewrite H; [reflexivity | lia | exact I].
Qed.

Lemma reference_format : @format_str_id runtime.
Proof. intros s. reflexivity. Qed.

End Reference.

(** ** Worked instances *)

Section Instances.

Import App RefRuntime Scenario.

Example strip_line : Py.strip ("  bot, key " +:+ Py.nl) = "bot, key".
Proof. reflexivity. Qed.

Example split_header : Py.split " " "Bearer abc def" = ["Bearer"; "abc"; "def"].
Proof. reflexivity. Qed.

Example readlines_text :
  Py.readlines ("a" +:+ Py.nl +:+ Py.nl +:+ "b") = ["a" +:+ Py.nl; Py.nl; "b"].
Proof. reflexivity. Qed.

Example join_absolute : Py.path_join "/srv/backend/memory_data/alice" "/tmp/x.txt" = "/tmp/x.txt".
Proof. reflexivity. Qed.

Example location_core :
  location "alice" (JStr "core") true = "/srv/backend/memory_data/alice/core.json".
Proof. reflexivity. Qed.

Example location_experience :
  location "alice" (JStr "experience") false = "/srv/backend/memory_data/alice/experience.log".
Proof. reflexivity. Qed.

Example entry_named : entry_of_line ("bot1, key1" +:+ Py.nl) = Some ("bot1", "key1").
Proof. reflexivity. Qed.

Example entry_comment : entry_of_line ("# bot1, key1" +:+ Py.nl) = None.
Proof. reflexivity. Qed.

(** The access gate on a server that knows alice and bob: no header,
    and a credential that is not registered. *)
Lemma gate_rejects_witness :
  handle VALID_KEYS GetMemory (Request None JNull None) fresh
  = (Response 401 (JObj [("error", JStr "Missing or invalid Authorization header")]), fresh)
  ∧ handle VALID_KEYS OverwriteMemory (post "mallory" [("type", JStr "core")]) fresh
    = (Response 403 (JObj [("error", JStr "Unauthorized")]), fresh).
Proof.
  split.
  - apply (proj1 (gate_rejects_before_filesystem VALID_KEYS GetMemory
                    (Request None JNull None) fresh)).
    left. reflexivity.
  - destruct (proj2 (gate_rejects_before_filesystem VALID_KEYS OverwriteMemory
                       (post "mallory" [("type", JStr "core")]) fresh)
                _ eq_refl eq_refl) as (key & Hkey & Hreject).
    apply Hreject. vm_compute in Hkey. injection Hkey as <-.
    vm_compute. intros H. discriminate H.
Defined.







(** C4 on the code: alice and bob use the same category name, one
    that is an absolute path.  [os.path.join] drops the namespace
    directory, both tenants address the file /tmp/x.txt, and bob reads
    what alice appended; served alone, bob is answered 404. *)
Lemma absolute_category_crosses_tenants :
  location "alice" (JStr "/tmp/x") false = "/tmp/x.txt"
  ∧ location "bob" (JStr "/tmp/x") false = "/tmp/x.txt"
  ∧ observe VALID_KEYS "bob"
      [(LogMemory "T1", post "alice" [("type", JStr "/tmp/x"); ("entry", JStr "secret")]);
       (GetMemory, get "bob" "/tmp/x")] fresh
    = [Response 200 (JObj [("memory", JStr ("[T1] secret" +:+ Py.nl));
                           ("format", JStr "text")])]
  ∧ observe VALID_KEYS "bob"
      (purge "bob"
         [(LogMemory "T1", post "alice" [("type", JStr "/tmp/x"); ("entry", JStr "secret")]);
          (GetMemory, get "bob" "/tmp/x")]) fresh
    = [Response 404 (JObj [("error", JStr "No memory found")])].
Proof. vm_compute. repeat split; reflexivity. Qed.

(** With plain names, bob's read of "core" is not touched by alice's
    append to "core". *)
Lemma tenant_isolation_witness :
  observe VALID_KEYS "bob"
    [(LogMemory "T1", post "alice" [("type", JStr "core"); ("entry", JStr "secret")]);
     (GetMemory, get "bob" "core")] fresh
  = observe VALID_KEYS "bob"
      (purge "bob"
         [(LogMemory "T1", post "alice" [("type", JStr "core"); ("entry", JStr "secret")]);
          (GetMemory, get "bob" "core")]) fresh.
Proof.
  refine (proj1 (tenant_isolation VALID_KEYS "bob" _ fresh eq_refl _)).
  apply Forall_cons_2; [| apply Forall_cons_2; [| apply Forall_nil_2]];
    intros key Hkey; vm_compute in Hkey; injection Hkey as <-; split; reflexivity.
Defined.


(** C2 fails on the code: alice's "core" is a list holding a string,
    which has no [get].  The exception leaves every loop: bob, who is in
    the registry with a descriptor to run, is not reached in this cycle.
    Had alice's fetch timed out instead, bob's handler would have run. *)
Lemma descriptor_failure_skips_remaining_tenants :
  snd (Worker.load_whitelist bots_file) = [("alice", "k1"); ("bob", "k2")]
  ∧ Worker.cycle Worker.MODULE_HANDLERS bots_file
      (api_with (Ret (JObj [("memory", JArr [JStr "oops"]); ("format", JStr "json")])))
    = [Worker.Checking "alice";
       Worker.GetMemoryFailed "k1" "notebook"; Worker.GetMemoryFailed "k1" "experience";
       Worker.Critical AttributeError; Worker.Sleeping]
  ∧ Worker.cycle Worker.MODULE_HANDLERS bots_file (api_with (Raise RequestException))
    = [Worker.Checking "alice"; Worker.GetMemoryFailed "k1" "core";
       Worker.GetMemoryFailed "k1" "notebook"; Worker.GetMemoryFailed "k1" "experience";
       Worker.Checking "bob";
       Worker.GetMemoryFailed "k2" "notebook"; Worker.GetMemoryFailed "k2" "experience";
       Worker.Running "email-monitor" "bob" "core";
       Worker.EmailMonitor "bob" (JObj [("type", JStr "email-monitor")]);
       Worker.Sleeping]
  ∧ ¬ In (Worker.Checking "bob")
        (Worker.cycle Worker.MODULE_HANDLERS bots_file
           (api_with (Ret (JObj [("memory", JArr [JStr "oops"]); ("format", JStr "json")])))).
Proof.
  vm_compute. repeat split; try reflexivity.
  intros H. repeat (destruct H as [H | H]; [discriminate H |]). exact H.
Qed.

(** All of alice's fetches time out: she is skipped and bob is served. *)
Lemma cycle_failure_witness :
  Worker.for_each [("alice", "k1"); ("bob", "k2")]
    (Worker.per_bot Worker.MODULE_HANDLERS (api_with (Raise RequestException)))
  = ([Worker.Checking "alice"; Worker.GetMemoryFailed "k1" "core";
      Worker.GetMemoryFailed "k1" "notebook"; Worker.GetMemoryFailed "k1" "experience";
      Worker.Checking "bob";
      Worker.GetMemoryFailed "k2" "notebook"; Worker.GetMemoryFailed "k2" "experience";
      Worker.Running "email-monitor" "bob" "core";
      Worker.EmailMonitor "bob" (JObj [("type", JStr "email-monitor")])],
     Ret tt).
Proof.
  pose proof (cycle_failure_handling Worker.MODULE_HANDLERS bots_file
                (api_with (Raise RequestException))) as (_ & _ & Hskip & _).
  rewrite (Hskip "alice" "k1" [("bob", "k2")]).
  - vm_compute. reflexivity.
  - intros mem _. unfold api_with.
    destruct (String.eqb mem "core"); eexists; reflexivity.
Defined.

End Instances.

(** * Further properties of the code *)

(** ** Edge behaviour of the writers *)

Section WriterEdges.

Context `{RT : PyRuntime}.

Import App.

(** A POST that is turned down is answered before any call to the file
    system.  A body that is not an object gives 500 on both writers; an
    append with no entry, or a null one, gives 400; an overwrite with no
    type, an empty one, or no entry gives 400.  In each case the world,
    its log of calls included, is as it was. *)
Theorem rejected_post_touches_nothing (now : string) (req : request)
    (instance_id : string) (w : world) :
  (is_dict (body req) = false →
     serve (log_memory now req instance_id) w = (InternalServerError AttributeError, w)
     ∧ serve (overwrite_memory req instance_id) w = (InternalServerError AttributeError, w))
  ∧ (∀ d, body req = JObj d →
       (is_none (body_entry d) = true →
          serve (log_memory now req instance_id) w
          = (Response 400 (JObj [("error", JStr "Missing 'entry'")]), w))
       ∧ (negb (truthy (body_type JNull d)) || is_none (body_entry d) = true →
          serve (overwrite_memory req instance_id) w
          = (Response 400 (JObj [("error", JStr "Missing 'type' or 'entry'")]), w))).
Proof.
  split.
  - intros Hd. unfold serve.
    rewrite (log_memory_no_dict now req instance_id w Hd),
      (overwrite_memory_no_dict req instance_id w Hd). split; reflexivity.
  - intros d Hb. split; intros H; unfold serve.
    + rewrite (log_memory_no_entry now req instance_id d w Hb H). reflexivity.
    + rewrite (overwrite_memory_missing req instance_id d w Hb H). reflexivity.
Qed.


End WriterEdges.

(** ** Overwrites and appends of one category, composed *)

Section WriterComposition.

Context `{RT : PyRuntime}.

Import App.

Lemma truthy_category (category : string) :
  category ≠ "" → truthy (JStr category) = true.
Proof. intros H. cbn. destruct (String.eqb_spec category ""); [congruence | reflexivity]. Qed.



(** An overwrite done twice is an overwrite done once: the second
    answer is the first, and files and directories are as after the
    first, whatever the request. *)
Theorem overwrite_idempotent (req : request) (instance_id : string) (w : world) :
  let once := serve (overwrite_memory req instance_id) w in
  let twice := serve (overwrite_memory req instance_id) (snd once) in
  fst twice = fst once
  ∧ files (snd twice) = files (snd once)
  ∧ dirs (snd twice) = dirs (snd once).
Proof.
  cbv zeta. rewrite !serve_run. cbn [fst snd].
  destruct (body req) as [| | | | |d] eqn:Hb;
    try (rewrite !overwrite_memory_no_dict by (rewrite Hb; reflexivity); auto).
  destruct (negb (truthy (body_type JNull d)) || is_none (body_entry d)) eqn:Hm.
  { rewrite !(overwrite_memory_missing req instance_id d) by assumption. auto. }
  apply orb_false_iff in Hm as [Htr Hn]. apply negb_false_iff in Htr.
  rewrite !(overwrite_memory_run req instance_id d) by assumption.
  destruct (body_entry d); cbn [fst snd files dirs];
    rewrite insert_insert_eq, (assoc_L (∪)), (idemp_L (∪)); auto.
Qed.

(** A read changes no file, whoever asks and whatever the answer; for
    a registered key it leaves the namespace directory of the key in
    existence, also when it answers 404. *)
Theorem read_changes_no_file (VALID_KEYS : gset string) (req : request) (w : world) :
  files (snd (handle VALID_KEYS GetMemory req w)) = files w
  ∧ (∀ key, presented_key req = Some key → key ∈ VALID_KEYS →
       inst_dir key ∈ dirs (snd (handle VALID_KEYS GetMemory req w))).
Proof.
  destruct (presented_key req) as [key|] eqn:Hkey.
  - rewrite (handle_key VALID_KEYS GetMemory req key w Hkey).
    destruct (bool_decide (key ∈ VALID_KEYS)) eqn:Hvalid.
    + rewrite serve_run. cbn [snd view_of].
      destruct (get_memory_run req key w) as (_ & Hfiles & Hdirs).
      split; [exact Hfiles |]. intros k [= <-] _. rewrite Hdirs.
      apply elem_of_union_l, elem_of_singleton. reflexivity.
    + split; [reflexivity |]. intros k [= <-] Hin.
      apply bool_decide_eq_false_1 in Hvalid. contradiction.
  - rewrite (handle_no_key VALID_KEYS GetMemory req w Hkey).
    split; [reflexivity |]. intros k Hk. discriminate Hk.
Qed.

End WriterComposition.

(** ** The gate, seen from the views *)

Section GateOutcomes.

Context `{RT : PyRuntime}.

Import App.

Lemma split_pieces (c : ascii) (s : string) :
  Forall (λ piece, Py.contains c piece = false) (Py.split c s).
Proof.
  induction s as [|d s IH]; cbn [Py.split].
  - constructor; [reflexivity | constructor].
  - destruct (Ascii.eqb c d) eqn:Hcd.
    + constructor; [reflexivity | exact IH].
    + destruct (Py.split c s) as [|piece pieces].
      * constructor; [| constructor]. cbn [Py.contains]. rewrite Hcd. reflexivity.
      * apply Forall_cons in IH as [Hpiece Hpieces].
        constructor; [| exact Hpieces]. cbn [Py.contains]. rewrite Hcd. exact Hpiece.
Qed.

Lemma presented_key_spaceless (req : request) (key : string) :
  presented_key req = Some key → Py.contains " " key = false.
Proof.
  unfold presented_key. destruct (authorization req) as [s|]; [| discriminate].
  destruct (Py.startswith s "Bearer "); [| discriminate].
  intros Hk. pose proof (split_pieces " " s) as Hall.
  rewrite Forall_forall in Hall. apply Hall.
  apply list_elem_of_lookup. exists 1%nat. exact Hk.
Qed.

(** Every request ends in one of three ways: 401 with the world
    untouched, 403 with the world untouched, or the view function run
    under a key that is registered and has no space in it.  A registered
    key with a space in it is therefore never served. *)
Theorem gate_outcomes (VALID_KEYS : gset string) (r : route) (req : request) (w : world) :
  handle VALID_KEYS r req w
  = (Response 401 (JObj [("error", JStr "Missing or invalid Authorization header")]), w)
  ∨ handle VALID_KEYS r req w
    = (Response 403 (JObj [("error", JStr "Unauthorized")]), w)
  ∨ ∃ key, key ∈ VALID_KEYS ∧ Py.contains " " key = false
           ∧ presented_key req = Some key
           ∧ handle VALID_KEYS r req w = serve (view_of r req key) w.
Proof.
  destruct (authorization req) as [s|] eqn:Hs.
  2:{ left. apply gate_unauthenticated. left. exact Hs. }
  destruct (Py.startswith s "Bearer ") eqn:Hp.
  2:{ left. apply gate_unauthenticated. right. eauto. }
  destruct (split_bearer s Hp) as [key Hk].
  assert (Hkey : presented_key req = Some key).
  { unfold presented_key. rewrite Hs, Hp. exact Hk. }
  right. rewrite (gate_bearer VALID_KEYS r req w s key Hs Hp Hk).
  destruct (bool_decide (key ∈ VALID_KEYS)) eqn:Hvalid; [right | left; reflexivity].
  exists key. apply bool_decide_eq_true_1 in Hvalid.
  split; [exact Hvalid |]. split; [exact (presented_key_spaceless req key Hkey) |].
  split; [exact Hkey | reflexivity].
Qed.

End GateOutcomes.

(** ** Structured files stay readable *)

Section Soundness.

Context `{RT : PyRuntime}.

Import App.

Lemma location_last_char instance_id mem_type as_json :
  Py.endswith (location instance_id mem_type as_json) "n" = as_json.
Proof.
  unfold location.
  set (stem := py_format mem_type +:+ ".").
  assert (Hname : ∀ a, Py.endswith (a +:+ py_format mem_type +:+ "." +:+
                                     extension mem_type as_json) "n" = as_json).
  { intros a. rewrite <- !append_assoc.
    rewrite endswith_app
      by (unfold extension; destruct as_json; [| destruct (neq_str _ _)]; discriminate).
    unfold extension. destruct as_json; [reflexivity |].
    destruct (neq_str mem_type "experience"); reflexivity. }
  unfold Py.path_join.
  destruct (Py.startswith _ "/"); [exact (Hname "") |].
  destruct (String.eqb _ "" || Py.endswith _ "/").
  - exact (Hname (inst_dir instance_id)).
  - pose proof (Hname (inst_dir instance_id +:+ "/")) as H.
    rewrite !append_assoc in H. exact H.
Qed.

Lemma structured_ne_raw id1 t1 id2 t2 :
  location id1 t1 true ≠ location id2 t2 false.
Proof.
  intros H. apply (f_equal (λ p, Py.endswith p "n")) in H.
  rewrite !location_last_char in H. discriminate H.
Qed.

(** What a view function does to the files: nothing, or JSON text
    written to the structured file of its category, or some text written
    to the raw file of its category. *)
Lemma view_effect (r : route) (req : request) (key : string) (w : world) :
  let pj := location key (route_category r req) true in
  let pt := location key (route_category r req) false in
  let w' := snd (serve (view_of r req key) w) in
  files w' = files w
  ∨ (∃ v, files w' = <[pj := json_dumps v]> (files w))
  ∨ (∃ text, files w' = <[pt := text]> (files w)).
Proof.
  cbv zeta. rewrite serve_run. cbn [snd].
  destruct r as [now| |]; cbn [view_of route_category].
  - destruct (body req) as [| | | | |d] eqn:Hb;
      try (rewrite log_memory_no_dict by (rewrite Hb; reflexivity); left; reflexivity).
    destruct (is_none (body_entry d)) eqn:Hn.
    { rewrite (log_memory_no_entry now req key d) by assumption. left. reflexivity. }
    destruct (is_dict (body_entry d)) eqn:Hd.
    + destruct (body_entry d) as [| | | | |fields] eqn:He; try discriminate Hd.
      rewrite (log_memory_dict now req key d fields) by assumption.
      destruct (existing_logs w _); cbn [snd files]; eauto.
    + rewrite (log_memory_raw now req key d w Hb Hn Hd). cbn [snd files]. eauto.
  - destruct (get_memory_run req key w) as (_ & -> & _). left. reflexivity.
  - destruct (body req) as [| | | | |d] eqn:Hb;
      try (rewrite overwrite_memory_no_dict by (rewrite Hb; reflexivity); left; reflexivity).
    destruct (negb (truthy (body_type JNull d)) || is_none (body_entry d)) eqn:Hm.
    { rewrite (overwrite_memory_missing req key d) by assumption. left. reflexivity. }
    apply orb_false_iff in Hm as [Htr Hn]. apply negb_false_iff in Htr.
    rewrite (overwrite_memory_run req key d) by assumption.
    destruct (body_entry d); cbn [snd files]; eauto.
Qed.

Lemma handle_keeps_sound (VALID_KEYS : gset string) (r : route) (req : request) (w : world) :
  dump_load_roundtrip → sound w → sound (snd (handle VALID_KEYS r req w)).
Proof.
  intros Hrt Hsound.
  destruct (gate_outcomes VALID_KEYS r req w) as [-> | [-> | (key & _ & _ & _ & ->)]];
    [exact Hsound | exact Hsound |].
  destruct (view_effect r req key w) as [Hf | [(v & Hf) | (text & Hf)]];
    intros id t content; rewrite Hf.
  - apply Hsound.
  - destruct (decide (location key (route_category r req) true = location id t true))
      as [<- | Hne].
    + rewrite lookup_insert_eq. intros [= <-]. rewrite Hrt. eauto.
    + rewrite lookup_insert_ne by exact Hne. apply Hsound.
  - rewrite lookup_insert_ne
      by (intros Heq; symmetry in Heq; exact (structured_ne_raw _ _ _ _ Heq)).
    apply Hsound.
Qed.

Lemma read_of_sound (VALID_KEYS : gset string) (req : request) (w : world) :
  sound w → no_server_error (fst (handle VALID_KEYS GetMemory req w)).
Proof.
  intros Hsound.
  destruct (gate_outcomes VALID_KEYS GetMemory req w)
    as [-> | [-> | (key & _ & _ & _ & ->)]]; [exact I | exact I |].
  rewrite serve_run. cbn [fst view_of].
  destruct (get_memory_run req key w) as (-> & _ & _). unfold read_answer.
  destruct (files w !! location key _ true) as [text|] eqn:Hj.
  - destruct (Hsound _ _ _ Hj) as [v ->]. exact I.
  - destruct (files w !! location key _ false); exact I.
Qed.


End Soundness.

(** ** Categories of one tenant *)

Section Categories.

Context `{RT : PyRuntime}.

Import App.

Lemma append_cancel_r (a b c : string) : a +:+ c = b +:+ c → a = b.
Proof.
  intros H. assert (Hlen : String.length a = String.length b).
  { apply (f_equal String.length) in H. rewrite !length_append in H. lia. }
  revert b H Hlen. induction a as [|x a IH]; intros [|y b] H Hlen;
    try discriminate Hlen; [reflexivity |].
  rewrite !append_cons in H. injection H as -> H.
  f_equal. apply IH; [exact H | cbn in Hlen; lia].
Qed.

Lemma relative_name (category ext : string) :
  Py.startswith category "/" = false →
  Py.startswith (category +:+ "." +:+ ext) "/" = false.
Proof.
  destruct category as [|c category]; [reflexivity |].
  unfold Py.startswith. rewrite !append_cons. cbn [String.prefix].
  destruct (ascii_dec "/" c); [| reflexivity]. destruct category; discriminate.
Qed.

(** Two category names that are not absolute paths have no file in
    common within a tenant. *)
Lemma location_category_inj instance_id c1 c2 b1 b2 :
  format_str_id →
  Py.startswith c1 "/" = false → Py.startswith c2 "/" = false →
  location instance_id (JStr c1) b1 = location instance_id (JStr c2) b2 → c1 = c2.
Proof.
  intros Hfmt H1 H2. unfold location, Py.path_join. rewrite !Hfmt.
  rewrite (relative_name c1 _ H1), (relative_name c2 _ H2).
  intros H.
  assert (Hn : c1 +:+ "." +:+ extension (JStr c1) b1 = c2 +:+ "." +:+ extension (JStr c2) b2).
  { destruct (String.eqb _ "" || Py.endswith _ "/");
      repeat apply append_cancel_l in H; exact H. }
  clear H. unfold extension in Hn.
  destruct b1, b2, (neq_str (JStr c1) "experience"), (neq_str (JStr c2) "experience");
    first [ exact (append_cancel_r _ _ _ Hn)
          | apply (f_equal (λ p, Py.endswith p "n")) in Hn;
            rewrite <- !append_assoc, !endswith_app in Hn by discriminate;
            discriminate Hn
          | apply (f_equal (λ p, Py.endswith p "t")) in Hn;
            rewrite <- !append_assoc, !endswith_app in Hn by discriminate;
            discriminate Hn ].
Qed.


End Categories.

(** ** The two registries, loaded from one file *)

Section Registries.

Lemma dict_set_elem {V} (name k : string) (v x : V) (d : list (string * V)) :
  (name, x) ∈ Py.dict_set k v d → (name, x) = (k, v) ∨ (name, x) ∈ d.
Proof.
  induction d as [|[k0 v0] d IH]; cbn [Py.dict_set].
  - intros H. apply list_elem_of_singleton in H. auto.
  - destruct (String.eqb k k0).
    + intros H. apply elem_of_cons in H as [H | H]; [auto |].
      right. apply elem_of_cons. auto.
    + intros H. apply elem_of_cons in H as [H | H].
      * right. rewrite H. left.
      * destruct (IH H) as [? | ?]; [auto |]. right. right. assumption.
Qed.

Lemma dict_set_names {V} (k : string) (v : V) (d : list (string * V)) :
  map fst (Py.dict_set k v d)
  = if bool_decide (k ∈ map fst d) then map fst d else map fst d ++ [k].
Proof.
  induction d as [|[k0 v0] d IH]; cbn [Py.dict_set map fst].
  - rewrite bool_decide_eq_false_2 by apply not_elem_of_nil. reflexivity.
  - destruct (String.eqb_spec k k0) as [<- | Hne]; cbn [map fst].
    + rewrite bool_decide_eq_true_2 by left. reflexivity.
    + rewrite IH. destruct (bool_decide (k ∈ map fst d)) eqn:Hin.
      * apply bool_decide_eq_true_1 in Hin.
        rewrite bool_decide_eq_true_2 by (right; exact Hin). reflexivity.
      * apply bool_decide_eq_false_1 in Hin.
        rewrite bool_decide_eq_false_2; [reflexivity |].
        intros H. apply elem_of_cons in H as [? | ?]; contradiction.
Qed.

Lemma dict_set_nodup {V} (k : string) (v : V) (d : list (string * V)) :
  NoDup (map fst d) → NoDup (map fst (Py.dict_set k v d)).
Proof.
  intros Hd. rewrite dict_set_names.
  destruct (bool_decide (k ∈ map fst d)) eqn:Hin; [exact Hd |].
  apply bool_decide_eq_false_1 in Hin.
  apply NoDup_app. split; [exact Hd |]. split; [| apply NoDup_singleton].
  intros x Hx Hk. apply list_elem_of_singleton in Hk. congruence.
Qed.

Lemma bots_from_lines (lines : list string) (bots : list (string * string))
    (name key : string) :
  (name, key) ∈ foldl bind_line bots lines →
  (name, key) ∈ bots ∨ ∃ line, line ∈ lines ∧ entry_of_line line = Some (name, key).
Proof.
  revert bots. induction lines as [|line lines IH]; intros bots; cbn [foldl]; [auto |].
  intros H. destruct (IH _ H) as [Hb | (l & Hin & Hl)].
  - unfold bind_line in Hb. destruct (entry_of_line line) as [[n k]|] eqn:He; [| auto].
    destruct (dict_set_elem _ _ _ _ _ Hb) as [[= -> ->] | ?]; [| auto].
    right. exists line. split; [left | exact He].
  - right. exists l. split; [right; exact Hin | exact Hl].
Qed.

Lemma bots_nodup (lines : list string) (bots : list (string * string)) :
  NoDup (map fst bots) → NoDup (map fst (foldl bind_line bots lines)).
Proof.
  revert bots. induction lines as [|line lines IH]; intros bots Hb; [exact Hb |].
  cbn [foldl]. apply IH. unfold bind_line.
  destruct (entry_of_line line) as [[n k]|]; [apply dict_set_nodup |]; exact Hb.
Qed.

(** Loaded from the same file, the worker's registry stays within the
    Memory API's: every key the worker polls with is a key the API
    accepts, and each bot name stands once in the worker's dict, so no
    bot is polled twice in a cycle. *)
Theorem worker_registry_within_api (text name key : string) :
  NoDup (map fst (snd (Worker.load_whitelist (Some text))))
  ∧ ((name, key) ∈ snd (Worker.load_whitelist (Some text)) →
     key ∈ App.load_whitelist (Some text)).
Proof.
  unfold Worker.load_whitelist. rewrite worker_whitelist_loop. cbn [snd].
  split; [apply bots_nodup; constructor |].
  intros H. destruct (bots_from_lines _ _ _ _ H) as [Hb | (line & Hin & Hl)].
  - inversion Hb.
  - cbn [App.load_whitelist].
    apply (proj2 (app_whitelist_loop (Py.readlines text) ∅)).
    right. exists line. split; [exact Hin |].
    unfold credential_of_line. rewrite Hl. reflexivity.
Qed.

Lemma lstrip_blank (a : string) : blank a = true → Py.lstrip a = "".
Proof.
  induction a as [|c a IH]; [reflexivity |]. cbn [blank Py.lstrip].
  intros H. apply andb_true_iff in H as [-> H]. exact (IH H).
Qed.

Lemma rstrip_blank (a : string) : blank a = true → Py.rstrip a = "".
Proof.
  induction a as [|c a IH]; [reflexivity |]. cbn [blank Py.rstrip].
  intros H. apply andb_true_iff in H as [-> H]. rewrite (IH H). reflexivity.
Qed.

Lemma lstrip_pad_l (a s : string) : blank a = true → Py.lstrip (a +:+ s) = Py.lstrip s.
Proof.
  induction a as [|c a IH]; [reflexivity |]. cbn [blank].
  intros H. apply andb_true_iff in H as [Hc H].
  rewrite append_cons. cbn [Py.lstrip]. rewrite Hc. exact (IH H).
Qed.

Lemma rstrip_pad_r (s b : string) : blank b = true → Py.rstrip (s +:+ b) = Py.rstrip s.
Proof.
  intros Hb. induction s as [|c s IH].
  - rewrite append_empty_l. exact (rstrip_blank b Hb).
  - rewrite append_cons. cbn [Py.rstrip]. rewrite IH. reflexivity.
Qed.

Lemma lstrip_pad_r (s b : string) :
  blank b = true →
  Py.lstrip (s +:+ b) = if blank s then "" else Py.lstrip s +:+ b.
Proof.
  intros Hb. induction s as [|c s IH].
  - rewrite append_empty_l. exact (lstrip_blank b Hb).
  - rewrite append_cons. cbn [Py.lstrip blank].
    destruct (Py.is_space c); [exact IH | reflexivity].
Qed.

Lemma strip_padded (a s b : string) :
  blank a = true → blank b = true → Py.strip (a +:+ s +:+ b) = Py.strip s.
Proof.
  intros Ha Hb. unfold Py.strip. rewrite (lstrip_pad_l a _ Ha), (lstrip_pad_r s b Hb).
  destruct (blank s) eqn:Hs.
  - rewrite (lstrip_blank s Hs). reflexivity.
  - apply rstrip_pad_r. exact Hb.
Qed.

(** White space around a line of the registry file does not count:
    with blanks, tabs or line ends before and after it, a line gives
    both loaders what it gives bare. *)
Theorem registry_line_padding (before line after : string) :
  blank before = true → blank after = true →
  App.whitelist_line (before +:+ line +:+ after) = App.whitelist_line line
  ∧ Worker.whitelist_line (before +:+ line +:+ after) = Worker.whitelist_line line.
Proof.
  intros Ha Hb. unfold App.whitelist_line, Worker.whitelist_line.
  rewrite (strip_padded before line after Ha Hb). split; reflexivity.
Qed.

End Registries.

(** ** Descriptors and handlers *)

Section Descriptors.

Import Worker.

Variable handlers : list (string * handler).

Lemma for_each_skip {A} (before : list A) (x : A) (after : list A) (body : A → W unit) :
  body x = ([], Ret tt) →
  for_each (before ++ x :: after) body = for_each (before ++ after) body.
Proof.
  intros Hx. induction before as [|y before IH]; cbn [app for_each].
  - rewrite Hx. unfold and_then. cbn [app]. destruct (for_each after body); reflexivity.
  - rewrite IH. reflexivity.
Qed.

(** A descriptor whose declared type names no registered handler is
    passed over: the list is processed as if the descriptor were not in
    it, so the descriptors before and after it are handled as they
    would be without it. *)
Theorem unregistered_descriptor_skipped (bot_name bot_key mem_type : string)
    (memories : list (string * json)) (before after : list json)
    (fields : list (string * json)) (t : json) :
  declared_type (JObj fields) = Ret t →
  handlers_get handlers t = Ret None →
  for_each (before ++ JObj fields :: after)
    (dispatch handlers bot_name bot_key mem_type memories)
  = for_each (before ++ after) (dispatch handlers bot_name bot_key mem_type memories).
Proof.
  intros Ht Hnone. apply for_each_skip. unfold dispatch. rewrite Ht, Hnone. reflexivity.
Qed.

(** The [module_type] field is looked at only when [type] is missing
    or falsy.  A descriptor with a non-empty [type] that is not
    registered is ignored even when its [module_type] names a handler;
    with no [type], or an empty or null one, the handler named by
    [module_type] runs, on the descriptor and the context of the
    category. *)
Theorem module_type_is_a_fallback (bot_name bot_key mem_type : string)
    (memories : list (string * json)) (fields : list (string * json)) :
  (∀ t, Py.dict_get "type" fields = Some (JStr t) → t ≠ "" →
     Py.dict_get t handlers = None →
     dispatch handlers bot_name bot_key mem_type memories (JObj fields) = ([], Ret tt))
  ∧ (∀ t h, truthy (default JNull (Py.dict_get "type" fields)) = false →
       Py.dict_get "module_type" fields = Some (JStr t) →
       Py.dict_get t handlers = Some h →
       dispatch handlers bot_name bot_key mem_type memories (JObj fields)
       = and_then ([Running t bot_name mem_type], Ret tt)
           (h bot_name bot_key (JObj fields) (Context mem_type memories))).
Proof.
  split.
  - intros t Ht Hne Hnone. unfold dispatch, declared_type, module_get.
    rewrite Ht. cbn [default from_option]. unfold id. cbn [truthy].
    destruct (String.eqb_spec t "") as [-> | _]; [congruence |].
    cbn [negb handlers_get]. rewrite Hnone. reflexivity.
  - intros t h Hfalsy Hmt Hh. unfold dispatch, declared_type, module_get.
    rewrite Hfalsy, Hmt. cbn [default from_option]. unfold id. cbn [handlers_get].
    rewrite Hh. reflexivity.
Qed.

End Descriptors.

(** ** The worker's client against the Memory API *)

Section Client.

Context `{RT : PyRuntime}.

Import App Worker Wire.

Lemma split_spaceless (c : ascii) (s : string) :
  Py.contains c s = false → Py.split c s = [s].
Proof.
  induction s as [|d s IH]; [reflexivity |]. cbn [Py.contains Py.split].
  destruct (Ascii.eqb c d); [discriminate |]. intros H. rewrite (IH H). reflexivity.
Qed.

Lemma prefix_app (p r : string) : String.prefix p (p +:+ r) = true.
Proof.
  induction p as [|c p IH]; [destruct r; reflexivity |].
  rewrite append_cons. cbn [String.prefix].
  destruct (ascii_dec c c); [exact IH | congruence].
Qed.

Lemma bearer_key (key : string) (data : json) (arg : option string) :
  Py.contains " " key = false →
  presented_key (Request (Some ("Bearer " +:+ key)) data arg) = Some key.
Proof.
  intros Hkey. unfold presented_key, Py.startswith. cbn [authorization].
  rewrite prefix_app. cbv [append]. cbn. rewrite (split_spaceless " " key Hkey).
  reflexivity.
Qed.

(** What a fetch returns, from the two files of the category. *)
Lemma fetch_cases (VALID_KEYS : gset string) (key mem : string) (w : world) :
  Py.contains " " key = false → key ∈ VALID_KEYS →
  let pj := location key (JStr mem) true in
  let pt := location key (JStr mem) false in
  let fetched := api_get_memory (served_by VALID_KEYS w) key mem in
  (∀ text v, files w !! pj = Some text → json_loads text = Some v → fetched = ([], v))
  ∧ (∀ text, files w !! pj = Some text → json_loads text = None →
       fetched = ([GetMemoryFailed key mem], JNull))
  ∧ (∀ raw, files w !! pj = None → files w !! pt = Some raw → fetched = ([], JStr raw))
  ∧ (files w !! pj = None → files w !! pt = None →
       fetched = ([GetMemoryFailed key mem], JNull)).
Proof.
  intros Hkey Hvalid pj pt fetched. subst fetched.
  unfold api_get_memory, served_by, get_request.
  rewrite (handle_key VALID_KEYS GetMemory _ key w (bearer_key key _ _ Hkey)).
  rewrite bool_decide_eq_true_2 by exact Hvalid.
  rewrite serve_run. cbn [fst view_of].
  match goal with |- context [get_memory ?req key w] =>
    destruct (get_memory_run req key w) as (-> & _ & _) end.
  cbn [arg_type default from_option]. unfold id. fold pj. fold pt. unfold read_answer.
  split; [| split; [| split]].
  - intros text v -> ->. reflexivity.
  - intros text -> ->. reflexivity.
  - intros raw -> ->. reflexivity.
  - intros -> ->. reflexivity.
Qed.


Lemma post_run (VALID_KEYS : gset string) (now key mem : string) (entry : json) (w : world) :
  Py.contains " " key = false → key ∈ VALID_KEYS →
  handle VALID_KEYS (LogMemory now) (post_request key mem entry) w
  = serve (log_memory now (post_request key mem entry) key) w
  ∧ body_type (JStr "experience") [("type", JStr mem); ("entry", entry)] = JStr mem
  ∧ body_entry [("type", JStr mem); ("entry", entry)] = entry.
Proof.
  intros Hkey Hvalid. unfold post_request.
  rewrite (handle_key VALID_KEYS (LogMemory now) _ key w (bearer_key key _ _ Hkey)).
  rewrite bool_decide_eq_true_2 by exact Hvalid. split; [reflexivity |].
  split; reflexivity.
Qed.


End Client.

(** ** From an append to a handler *)

Section EndToEnd.

Context `{RT : PyRuntime}.

Import App Worker Wire.

Variable handlers : list (string * handler).


End EndToEnd.

(** ** Further worked instances *)

Section MoreInstances.

Import App RefRuntime Scenario.

(** An append with no entry, and an overwrite with an empty type. *)
Lemma rejected_post_witness :
  serve (log_memory "T1" (post "alice" [("type", JStr "core")]) "alice") fresh
  = (Response 400 (JObj [("error", JStr "Missing 'entry'")]), fresh)
  ∧ serve (overwrite_memory (post "alice" [("type", JStr ""); ("entry", JStr "x")]) "alice")
      fresh
    = (Response 400 (JObj [("error", JStr "Missing 'type' or 'entry'")]), fresh).
Proof.
  split.
  - apply (proj1 (proj2 (rejected_post_touches_nothing "T1"
                           (post "alice" [("type", JStr "core")]) "alice" fresh)
                   _ eq_refl)).
    reflexivity.
  - apply (proj2 (proj2 (rejected_post_touches_nothing "T1"
                           (post "alice" [("type", JStr ""); ("entry", JStr "x")])
                           "alice" fresh)
                   _ eq_refl)).
    reflexivity.
Defined.




(** A read of a category that does not exist makes the directory. *)
Lemma read_changes_no_file_witness :
  inst_dir "alice" = "/srv/backend/memory_data/alice"
  ∧ inst_dir "alice" ∈ dirs (snd (handle VALID_KEYS GetMemory (get "alice" "nothing") fresh)).
Proof.
  split; [reflexivity |].
  apply (proj2 (read_changes_no_file VALID_KEYS (get "alice" "nothing") fresh) "alice").
  - reflexivity.
  - vm_compute. reflexivity.
Defined.



(** The name bot1 is bound twice; the worker polls with the second key,
    which the API accepts. *)
Lemma worker_registry_witness :
  "k2" ∈ load_whitelist (Some ("bot1, k1" +:+ Py.nl +:+ "bot1, k2")).
Proof.
  apply (proj2 (worker_registry_within_api ("bot1, k1" +:+ Py.nl +:+ "bot1, k2") "bot1" "k2")).
  vm_compute. left.
Defined.

(** An indented line with trailing blanks and its line end. *)
Lemma registry_line_padding_witness :
  whitelist_line ("  " +:+ "bot1, k1" +:+ (" " +:+ Py.nl)) = whitelist_line "bot1, k1".
Proof.
  apply (proj1 (registry_line_padding "  " "bot1, k1" (" " +:+ Py.nl) eq_refl eq_refl)).
Defined.

(** An unknown module between two email monitors. *)
Lemma unregistered_descriptor_witness :
  Worker.for_each
    ([JObj [("type", JStr "email-monitor")]]
       ++ JObj [("type", JStr "weather")] :: [JObj [("type", JStr "email-monitor")]])
    (Worker.dispatch Worker.MODULE_HANDLERS "bob" "k2" "core" [])
  = Worker.for_each
      ([JObj [("type", JStr "email-monitor")]] ++ [JObj [("type", JStr "email-monitor")]])
      (Worker.dispatch Worker.MODULE_HANDLERS "bob" "k2" "core" []).
Proof.
  apply (unregistered_descriptor_skipped Worker.MODULE_HANDLERS "bob" "k2" "core" []
           _ _ _ (JStr "weather")); reflexivity.
Defined.

(** A descriptor with an unknown type and a known module_type, and one
    with only a module_type. *)
Lemma module_type_fallback_witness :
  Worker.dispatch Worker.MODULE_HANDLERS "bob" "k2" "core" []
    (JObj [("type", JStr "weather"); ("module_type", JStr "email-monitor")])
  = ([], Ret tt)
  ∧ Worker.dispatch Worker.MODULE_HANDLERS "bob" "k2" "core" []
      (JObj [("module_type", JStr "email-monitor")])
    = ([Worker.Running "email-monitor" "bob" "core";
        Worker.EmailMonitor "bob" (JObj [("module_type", JStr "email-monitor")])], Ret tt).
Proof.
  split.
  - apply (proj1 (module_type_is_a_fallback Worker.MODULE_HANDLERS "bob" "k2" "core" []
                    [("type", JStr "weather"); ("module_type", JStr "email-monitor")])
             "weather"); [reflexivity | discriminate | reflexivity].
  - rewrite (proj2 (module_type_is_a_fallback Worker.MODULE_HANDLERS "bob" "k2" "core" []
                      [("module_type", JStr "email-monitor")])
               "email-monitor" Worker.handle_email_monitor);
      reflexivity.
Defined.




End MoreInstances.
